(** * A shallow embedding of the agent execution engine of agent_framework

    Python values are modelled by [Value]; a Python dict used as a message,
    a context or a tool result is an association list [Dict] (first binding
    wins, as a lookup in a Python dict with unique keys).  Exceptions raised
    by the code are modelled by [None] results (or the [Raise] outcome of
    an agent iteration) where the properties below depend on them. *)

From stdpp Require Import base gmap strings list pretty.
From Stdlib Require Import ZArith String Bool.

Set Warnings "-register-all".

Local Open Scope Z_scope.

(* ------------------------------------------------------------------ *)
(** ** Python values *)

Inductive Value :=
| VNone
| VBool (b : bool)
| VInt (z : Z)
| VStr (s : string)
| VList (l : list Value)
| VDict (d : list (string * Value)).

Abbreviation Dict := (list (string * Value)).

(** [d.get(k)] without a default: the first binding of [k], if any. *)
Fixpoint dict_lookup (d : Dict) (k : string) : option Value :=
  match d with
  | [] => None
  | (k', v) :: d' => if String.eqb k k' then Some v else dict_lookup d' k
  end.

(** [d.get(k, default)] *)
Definition get_or (d : Dict) (k : string) (dflt : Value) : Value :=
  match dict_lookup d k with Some v => v | None => dflt end.

(** [d.get(k)] *)
Definition get (d : Dict) (k : string) : Value := get_or d k VNone.

(** [k in d] *)
Definition has_key (d : Dict) (k : string) : bool :=
  match dict_lookup d k with Some _ => true | None => false end.

(** Python truthiness, [bool(v)]. *)
Definition truthy (v : Value) : bool :=
  match v with
  | VNone => false
  | VBool b => b
  | VInt z => negb (Z.eqb z 0)
  | VStr s => negb (String.eqb s "")
  | VList l => match l with [] => false | _ => true end
  | VDict d => match d with [] => false | _ => true end
  end.

(** [v is True] *)
Definition is_true_value (v : Value) : bool :=
  match v with VBool true => true | _ => false end.

(** [v is False] *)
Definition is_false_value (v : Value) : bool :=
  match v with VBool false => true | _ => false end.

(** [a or b] *)
Definition py_or (a b : Value) : Value := if truthy a then a else b.

(** Integers as Python sees them ([bool] is a subclass of [int]). *)
Definition py_int (v : Value) : option Z :=
  match v with
  | VInt z => Some z
  | VBool b => Some (if b then 1 else 0)
  | _ => None
  end.

(** Python [==]: numbers compare by value ([True == 1]), lists
    elementwise, dicts by key set and per-key values. *)
Fixpoint py_eq (a b : Value) {struct a} : bool :=
  match a, b with
  | VNone, VNone => true
  | VStr x, VStr y => String.eqb x y
  | VList xs, VList ys =>
      (fix go (xs ys : list Value) : bool :=
         match xs, ys with
         | [], [] => true
         | x :: xs', y :: ys' => py_eq x y && go xs' ys'
         | _, _ => false
         end) xs ys
  | VDict da, VDict db =>
      (fix go (d : Dict) : bool :=
         match d with
         | [] => true
         | (k, v) :: d' =>
             match dict_lookup db k with
             | Some w => py_eq v w && go d'
             | None => false
             end
         end) da
      && forallb (fun kv => has_key da kv.1) db
  | _, _ =>
      match py_int a, py_int b with
      | Some x, Some y => Z.eqb x y
      | _, _ => false
      end
  end.

(** [e.get("type") in tys] for a list of type strings. *)
Definition type_in (e : Dict) (tys : list string) : bool :=
  match get e "type" with
  | VStr s => existsb (String.eqb s) tys
  | _ => false
  end.

(** [l[start:]] *)
Definition py_slice_from {A} (start : Z) (l : list A) : list A :=
  let n := Z.of_nat (List.length l) in
  let s := if start <? 0 then Z.max 0 (n + start) else Z.min start n in
  drop (Z.to_nat s) l.

(* ------------------------------------------------------------------ *)
(** ** constants.py *)

Definition USER_MESSAGE := "user_message"%string.
Definition ASSISTANT_MESSAGE := "assistant_message"%string.
Definition TASK := "task"%string.
Definition ACTION := "action"%string.
Definition OBSERVATION := "observation"%string.
Definition ERROR := "error"%string.
Definition FINAL := "final"%string.
Definition SYNTHESIS := "synthesis"%string.
Definition SUGGESTED_PLAN := "suggested_plan"%string.
Definition GLOBAL_OBSERVATION := "global_observation"%string.
Definition CONVERSATION_TYPES := [USER_MESSAGE; ASSISTANT_MESSAGE].
Definition EXECUTION_TRACE_TYPES := [TASK; ACTION; OBSERVATION; ERROR].

(* ------------------------------------------------------------------ *)
(** ** policies/history_filters.py *)

Module HistoryFilters.

(** The four filter classes; [Orchestrator n] is
    [OrchestratorHistoryFilter(max_conversation_turns=n)]. *)
Inductive HistoryFilter :=
| Orchestrator (max_conversation_turns : Z)
| Manager
| Worker
| DefaultFilter.

(** [OrchestratorHistoryFilter.filter_for_prompt]; [None] is the
    TypeError of [conversation[-max_turns:]] on a non-integer. *)
Definition orchestrator_filter (max_conversation_turns : Z)
    (history : list Dict) (context : Dict) : option (list Dict) :=
  let max_turns := get_or context "max_conversation_turns" (VInt max_conversation_turns) in
  let conversation := List.filter (fun e => type_in e CONVERSATION_TYPES) history in
  match py_int max_turns with
  | Some n => Some (py_slice_from (- n) conversation)
  | None => None
  end.

(** [ManagerHistoryFilter.filter_for_prompt]; [None] is the TypeError of
    [phase_id > 0] or [phase_id - 1] on a non-number. *)
Definition manager_filter (history : list Dict) (context : Dict) : option (list Dict) :=
  let phase_id := get context "phase_id" in
  let previous_phase_id := get context "previous_phase_id" in
  let keep (p : Value) :=
    List.filter (fun e => py_eq (get e "type") (VStr SYNTHESIS)
                          && py_eq (get e "phase_id") p) history in
  match previous_phase_id with
  | VNone =>
      match phase_id with
      | VNone => Some []
      | _ =>
          match py_int phase_id with
          | None => None
          | Some p => if 0 <? p then Some (keep (VInt (p - 1))) else Some []
          end
      end
  | _ => Some (keep previous_phase_id)
  end.

(** [HistoryFilter._find_last_task_marker]: scan from the end. *)
Fixpoint scan_back (history : list Dict) (i : nat) : Z :=
  match i with
  | O => -1
  | S j =>
      match history !! j with
      | Some e => if py_eq (get e "type") (VStr TASK) then Z.of_nat j else scan_back history j
      | None => -1
      end
  end.

Definition find_last_task_marker (history : list Dict) : Z :=
  scan_back history (List.length history).

(** [WorkerHistoryFilter.filter_for_prompt] *)
Definition worker_filter (history : list Dict) (context : Dict) : option (list Dict) :=
  let last_task_idx := find_last_task_marker history in
  if last_task_idx <? 0 then Some []
  else
    let current_turn := py_slice_from (last_task_idx + 1) history in
    Some (List.filter (fun e => type_in e (EXECUTION_TRACE_TYPES ++ [GLOBAL_OBSERVATION]))
            current_turn).

Definition filter_for_prompt (f : HistoryFilter) (history : list Dict) (context : Dict)
    : option (list Dict) :=
  match f with
  | Orchestrator n => orchestrator_filter n history context
  | Manager => manager_filter history context
  | Worker => worker_filter history context
  | DefaultFilter => Some history
  end.

(** The number of turns the orchestrator filter keeps for a context. *)
Definition effective_max_turns (n : Z) (context : Dict) : option Z :=
  py_int (get_or context "max_conversation_turns" (VInt n)).

(** Filters and contexts on which re-filtering is expected to be a no-op:
    the default and manager filters always, the orchestrator filter when
    the turn limit it reads is a non-negative integer. *)
Definition idempotence_domain (f : HistoryFilter) (context : Dict) : Prop :=
  match f with
  | Orchestrator n => exists m, effective_max_turns n context = Some m /\ 0 <= m
  | Manager | DefaultFilter => True
  | Worker => False
  end.

End HistoryFilters.

(* ------------------------------------------------------------------ *)
(** ** base.py *)

Module Base.

(** [@dataclass class Action] *)
Record Action := mkAction { tool_name : string; tool_args : Dict }.

(** [class FinalResponse(BaseModel)] *)
Record FinalResponse := mkFinalResponse {
  operation : string;
  payload : Dict;
  human_readable_summary : string
}.

(** [FinalResponse.model_dump()] *)
Definition model_dump (r : FinalResponse) : Dict :=
  [("operation", VStr (operation r)); ("payload", VDict (payload r));
   ("human_readable_summary", VStr (human_readable_summary r))].

(** What [planner.plan] returns: [Action], [List[Action]], [FinalResponse],
    or anything else (e.g. [None]). *)
Inductive PlanOutcome :=
| OAction (a : Action)
| OActions (l : list Action)
| OFinal (r : FinalResponse)
| OOther (v : Value).

End Base.

(* ------------------------------------------------------------------ *)
(** ** policies/default.py : DefaultTerminationPolicy *)

Module Termination.
Import Base.

(** The constructor arguments of [DefaultTerminationPolicy]; the completion
    detector is any [CompletionDetector.is_complete]. *)
Record DefaultTerminationPolicy := {
  max_iterations : option Z;
  require_terminal_tool : bool;
  terminal_tools : list string;
  check_completion : bool;
  is_complete : Value -> list Dict -> Dict -> bool
}.

(** [self.max_iterations and iteration > self.max_iterations] *)
Definition over_cap (p : DefaultTerminationPolicy) (iteration : Z) : bool :=
  match max_iterations p with
  | None => false
  | Some m => truthy (VInt m) && (m <? iteration)
  end.

(** [next((h.get("content") for h in reversed(history)
          if h.get("type") == "observation"), None)] *)
Definition last_observation_content (history : list Dict) : Value :=
  match List.find (fun h => py_eq (get h "type") (VStr OBSERVATION)) (rev history) with
  | Some h => get h "content"
  | None => VNone
  end.

(** [DefaultTerminationPolicy.should_terminate] *)
Definition should_terminate (p : DefaultTerminationPolicy) (iteration : Z)
    (plan_outcome : PlanOutcome) (history : list Dict) (context : Dict) : bool :=
  if over_cap p iteration then true else
  match plan_outcome with
  | OFinal _ => true
  | OAction a =>
      require_terminal_tool p && existsb (String.eqb (tool_name a)) (terminal_tools p)
  | OActions l =>
      require_terminal_tool p
      && existsb (fun a => existsb (String.eqb (tool_name a)) (terminal_tools p)) l
  | OOther _ =>
      check_completion p &&
      (let last_obs := last_observation_content history in
       truthy last_obs && is_complete p last_obs history context)
  end.

(** A termination policy with [max_iterations = m], other fields as given. *)
Definition with_cap (m : option Z) (rt : bool) (tt : list string) (cc : bool)
    (ic : Value -> list Dict -> Dict -> bool) : DefaultTerminationPolicy :=
  {| max_iterations := m; require_terminal_tool := rt; terminal_tools := tt;
     check_completion := cc; is_complete := ic |}.

End Termination.

(* ------------------------------------------------------------------ *)
(** ** state/job_store.py and policies/default.py : DefaultHITLPolicy *)

Module HITL.

(** A Python [str] is modelled by its UTF-8 bytes.  Its characters: each
    a lead byte with the continuation bytes ([0x80]..[0xBF]) after it. *)
Definition is_continuation (c : Ascii.ascii) : bool :=
  let n := Ascii.nat_of_ascii c in ((128 <=? n) && (n <=? 191))%nat.

Fixpoint utf8_chars (s : string) : list string :=
  match s with
  | EmptyString => []
  | String c s' =>
      match utf8_chars s' with
      | String c' x :: rest =>
          if is_continuation c' then String c (String c' x) :: rest
          else String c EmptyString :: String c' x :: rest
      | chars => String c EmptyString :: chars
      end
  end.

(** A persisted [Job]; only the fields read here. *)
Record Job := mkJob { job_id : string; status : string; executed_actions : list string }.

(** The directory of a [FileJobStore]: file name -> stored job. *)
Abbreviation JobStore := (gmap string Job).

Section Paths.
(** [ch.isalnum()] of a non-ASCII character, given by its UTF-8 bytes
    (the Unicode letters and numbers). *)
Variable isalnum_nonascii : string -> bool.

(** [ch.isalnum() or ch in ("-", "_")] *)
Definition safe_char (ch : string) : bool :=
  match ch with
  | String c EmptyString =>
      let n := Ascii.nat_of_ascii c in
      ((48 <=? n) && (n <=? 57))%nat || ((65 <=? n) && (n <=? 90))%nat
      || ((97 <=? n) && (n <=? 122))%nat || (n =? 45)%nat || (n =? 95)%nat
  | _ => isalnum_nonascii ch
  end.

(** [FileJobStore._path]: the file a job id is stored in (its name
    without the directory and the [.json] suffix). *)
Definition safe_name (job_id : string) : string :=
  match String.concat "" (List.filter safe_char (utf8_chars job_id)) with
  | EmptyString => "job"
  | safe => safe
  end.

(** [FileJobStore.has_executed_action] *)
Definition has_executed_action (store : JobStore) (jid signature : string) : bool :=
  match store !! safe_name jid with
  | Some job => bool_decide (signature ∈ executed_actions job)
  | None => false
  end.

(** [FileJobStore.add_executed_action] *)
Definition add_executed_action (store : JobStore) (jid signature : string) : JobStore :=
  let job := match store !! safe_name jid with
             | Some j => j
             | None => mkJob jid "running" []
             end in
  let sigs := executed_actions job in
  let sigs' := if bool_decide (signature ∈ sigs) then sigs else sigs ++ [signature] in
  <[safe_name jid := mkJob (job_id job) (status job) sigs']> store.

(** Python's [importlib._bootstrap._resolve_name]: the absolute module a
    relative import of [level] dots names from [package], or [None] for the
    ImportError "attempted relative import beyond top-level package". *)
Definition resolve_relative_import (package : list string) (level : nat) (name : list string)
    : option (list string) :=
  if (List.length package <? level)%nat then None
  else Some (firstn (List.length package - (level - 1)) package ++ name).

(** The package of [agent_framework/policies/default.py] and of
    [agent_framework/core/agent.py] (the distribution's top-level package
    is [agent_framework]). *)
Definition policies_package := ["agent_framework"; "policies"]%string.
Definition core_package := ["agent_framework"; "core"]%string.
Definition job_store_module := ["agent_framework"; "state"; "job_store"]%string.

Record DefaultHITLPolicy := {
  enabled : bool;
  scope : string;          (** already lower-cased by the constructor *)
  write_tools : list string
}.

Definition default_write_tools : list string :=
  ["add_table"; "add_column"; "add_relationship"; "update_relationship";
   "rename_column"; "add_measure"; "remove_column"; "remove_relationship";
   "remove_measure"; "update_measure"; "update_partition_source"; "update_sql_query"]%string.

Section RequiresApproval.
(** [str(v)] and [json.dumps(args, sort_keys=True, default=str)]. *)
Variable py_str : Value -> string.
Variable json_dumps_sorted : Dict -> string.

(** The executed-action signature [f"{tool}:{json.dumps(args, ...)}"]. *)
Definition signature (tool_name : string) (tool_args : Dict) : string :=
  tool_name +:+ ":" +:+ json_dumps_sorted tool_args.

(** [DefaultHITLPolicy.requires_approval]; [None] is the AttributeError of
    [approvals.get] when the context's [approvals] is not a dict.  The
    job-store lookup runs inside [try: ... except Exception: pass], after
    [from ...state.job_store import get_job_store]. *)
Definition requires_approval (p : DefaultHITLPolicy) (store : JobStore)
    (tool_name : string) (tool_args : Dict) (context : Dict) : option bool :=
  if negb (enabled p) then Some false else
  match get_or context "approvals" (VDict []) with
  | VDict approvals =>
      if truthy (get approvals tool_name) then Some false else
      let jid := let j := get context "job_id" in
                 if truthy j then j else get context "JOB_ID" in
      let bypass :=
        if truthy jid then
          match resolve_relative_import policies_package 3 ["state"; "job_store"]%string with
          | None => false
          | Some _ => has_executed_action store (py_str jid) (signature tool_name tool_args)
          end
        else false in
      if bypass then Some false
      else if String.eqb (scope p) "all" then Some true
      else if String.eqb (scope p) "writes" then
        Some (bool_decide (tool_name ∈ write_tools p))
      else Some false
  | _ => None
  end.
End RequiresApproval.

(** [DefaultHITLPolicy.create_approval_request] *)
Definition create_approval_request (p : DefaultHITLPolicy) (tool_name : string) (tool_args : Dict)
    : Dict :=
  [("operation", VStr "await_approval");
   ("payload", VDict [("await_approval", VBool true); ("tool", VStr tool_name);
                      ("args", VDict tool_args);
                      ("message", VStr ("Approval required to execute tool '" +:+ tool_name +:+ "'."));
                      ("reason", VStr ("HITL enabled (scope=" +:+ scope p +:+ ")"))]);
   ("human_readable_summary", VStr ("Approval required: " +:+ tool_name))].

(** The directory as [save_job] leaves it: each file holds a job whose
    [_path(job.job_id)] is that file. *)
Definition store_wf (store : JobStore) : Prop :=
  forall f j, store !! f = Some j -> safe_name (job_id j) = f.

End Paths.

End HITL.

(* ------------------------------------------------------------------ *)
(** ** components/memory.py (src/) *)

Module Memory.

(** A conversation turn [{"role", "content", "timestamp"}]. *)
Record Turn := mkTurn { role : string; content : string; timestamp : Z }.

(** [SharedStateStore]: three namespace-keyed maps (the defaultdicts). *)
Record SharedStateStore := mkStore {
  global_feeds : gmap string (list Dict);
  agent_feeds : gmap string (gmap string (list Dict));
  conversation_feeds : gmap string (list Turn)
}.

Definition empty_store : SharedStateStore := mkStore ∅ ∅ ∅.

Definition feed {A} (m : gmap string (list A)) (k : string) : list A :=
  match m !! k with Some l => l | None => [] end.

Definition append_global_update (st : SharedStateStore) (namespace : string) (update : Dict)
    : SharedStateStore :=
  mkStore (<[namespace := feed (global_feeds st) namespace ++ [update]]> (global_feeds st))
          (agent_feeds st) (conversation_feeds st).

Definition append_agent_msg (st : SharedStateStore) (namespace agent_key : string) (msg : Dict)
    : SharedStateStore :=
  let ns_feeds := match agent_feeds st !! namespace with Some m => m | None => ∅ end in
  mkStore (global_feeds st)
          (<[namespace := <[agent_key := feed ns_feeds agent_key ++ [msg]]> ns_feeds]> (agent_feeds st))
          (conversation_feeds st).

(** [append_conversation_turn]; [ts] is the [time.time()] read. *)
Definition append_conversation_turn (st : SharedStateStore) (namespace r c : string) (ts : Z)
    : SharedStateStore :=
  mkStore (global_feeds st) (agent_feeds st)
          (<[namespace := feed (conversation_feeds st) namespace ++ [mkTurn r c ts]]>
             (conversation_feeds st)).

Definition list_conversation (st : SharedStateStore) (namespace : string) : list Turn :=
  feed (conversation_feeds st) namespace.

Definition list_global_updates (st : SharedStateStore) (namespace : string) : list Dict :=
  feed (global_feeds st) namespace.

Definition list_agent_msgs (st : SharedStateStore) (namespace agent_key : string) : list Dict :=
  match agent_feeds st !! namespace with
  | Some m => feed m agent_key
  | None => []
  end.

Fixpoint list_team_msgs (st : SharedStateStore) (namespace : string) (agent_keys : list string)
    : list Dict :=
  match agent_keys with
  | [] => []
  | key :: keys => list_agent_msgs st namespace key ++ list_team_msgs st namespace keys
  end.

(** The conversation rows of [SharedInMemoryMemory.get_history]. *)
Fixpoint conversation_msgs (conversation : list Turn) : list Dict :=
  match conversation with
  | [] => []
  | turn :: rest =>
      if String.eqb (role turn) "user" then
        [("type", VStr USER_MESSAGE); ("content", VStr (content turn))] :: conversation_msgs rest
      else if String.eqb (role turn) "assistant" then
        [("type", VStr ASSISTANT_MESSAGE); ("content", VStr (content turn))] :: conversation_msgs rest
      else conversation_msgs rest
  end.

(** [SharedInMemoryMemory(namespace, agent_key)] *)
Record SharedInMemoryMemory := { namespace : string; agent_key : string }.

Definition shared_add (m : SharedInMemoryMemory) (st : SharedStateStore) (message : Dict)
    : SharedStateStore :=
  append_agent_msg st (namespace m) (agent_key m) message.

Definition shared_get_history (m : SharedInMemoryMemory) (st : SharedStateStore) : list Dict :=
  conversation_msgs (list_conversation st (namespace m))
  ++ list_agent_msgs st (namespace m) (agent_key m)
  ++ list_global_updates st (namespace m).

(** [SharedInMemoryMemory.add_global] ([dict(update)] is a copy with the
    same items). *)
Definition shared_add_global (m : SharedInMemoryMemory) (st : SharedStateStore) (update : Dict)
    : SharedStateStore :=
  append_global_update st (namespace m) update.

(** [HierarchicalSharedMemory(namespace, agent_key, subordinates)];
    [subordinates or []] is the list given. *)
Record HierarchicalSharedMemory := {
  h_namespace : string; h_agent_key : string; subordinates : list string
}.

(** [HierarchicalSharedMemory.get_history] (overrides the parent's). *)
Definition hierarchical_get_history (m : HierarchicalSharedMemory) (st : SharedStateStore)
    : list Dict :=
  let manager_msgs := list_agent_msgs st (h_namespace m) (h_agent_key m) in
  let team_msgs := list_team_msgs st (h_namespace m) (subordinates m) in
  let global_updates := list_global_updates st (h_namespace m) in
  manager_msgs ++ team_msgs ++ global_updates.

End Memory.

(* ------------------------------------------------------------------ *)
(** ** components/message_store_memory.py *)

Module MessageStoreMemory.

Section WithStore.
(** A [BaseMessageStore] implementation: its state and its three readers. *)
Variable S : Type.
Variable get_conversation_messages : S -> string -> list Dict.
Variable get_agent_messages : S -> string -> string -> list Dict.
Variable get_global_messages : S -> string -> list Dict.

(** [MessageStoreMemory(message_store, location, agent_key)] *)
Record MessageStoreMemory := { location : string; agent_key : string }.

(** [MessageStoreMemory.add]: the body is [pass]; the memory object and
    the store are returned as they were. *)
Definition add (m : MessageStoreMemory) (store : S) (message : Dict) : MessageStoreMemory * S :=
  (m, store).

Definition get_history (m : MessageStoreMemory) (store : S) : list Dict :=
  get_conversation_messages store (location m)
  ++ get_agent_messages store (location m) (agent_key m)
  ++ get_global_messages store (location m).
End WithStore.

End MessageStoreMemory.

(* ------------------------------------------------------------------ *)
(** ** Python string helpers *)

(** A Python [str] is modelled by its UTF-8 bytes. *)
Module PyStr.

(** The one-byte characters [str.isspace] holds for:
    [\t \n \v \f \r], [\x1c]..[\x1f] and the space. *)
Definition is_space (c : Ascii.ascii) : bool :=
  let n := Ascii.nat_of_ascii c in
  ((9 <=? n) && (n <=? 13))%nat || ((28 <=? n) && (n <=? 32))%nat.

(** The two-byte ones, U+0085 and U+00A0, by their UTF-8 bytes. *)
Definition is_space2 (b1 b2 : nat) : bool :=
  ((b1 =? 194) && ((b2 =? 133) || (b2 =? 160)))%nat.

(** The three-byte ones: U+1680, U+2000..U+200A, U+2028, U+2029, U+202F,
    U+205F and U+3000. *)
Definition is_space3 (b1 b2 b3 : nat) : bool :=
  ((b1 =? 225) && (b2 =? 154) && (b3 =? 128))%nat
  || ((b1 =? 226) && (b2 =? 128)
      && (((128 <=? b3) && (b3 <=? 138)) || (b3 =? 168) || (b3 =? 169) || (b3 =? 175)))%nat
  || ((b1 =? 226) && (b2 =? 129) && (b3 =? 159))%nat
  || ((b1 =? 227) && (b2 =? 128) && (b3 =? 128))%nat.

(** Drops the whitespace characters at the front, recognising the
    multi-byte ones with [sp2] and [sp3]. *)
Fixpoint lstrip_with (sp2 : nat -> nat -> bool) (sp3 : nat -> nat -> nat -> bool)
    (s : string) : string :=
  match s with
  | EmptyString => EmptyString
  | String c s1 =>
      if is_space c then lstrip_with sp2 sp3 s1 else
      match s1 with
      | EmptyString => s
      | String c2 s2 =>
          if sp2 (Ascii.nat_of_ascii c) (Ascii.nat_of_ascii c2) then lstrip_with sp2 sp3 s2 else
          match s2 with
          | EmptyString => s
          | String c3 s3 =>
              if sp3 (Ascii.nat_of_ascii c) (Ascii.nat_of_ascii c2) (Ascii.nat_of_ascii c3)
              then lstrip_with sp2 sp3 s3 else s
          end
      end
  end.

(** [s.lstrip()] *)
Definition lstrip (s : string) : string := lstrip_with is_space2 is_space3 s.

Fixpoint string_rev (s : string) : string :=
  match s with
  | EmptyString => EmptyString
  | String c s' => string_rev s' +:+ String c EmptyString
  end.

(** [s.strip()]: the trailing whitespace is dropped from the front of the
    reversed bytes, whose multi-byte characters appear reversed (UTF-8 is
    self-synchronising, so no match straddles two characters). *)
Definition strip (s : string) : string :=
  string_rev (lstrip_with (fun b2 b1 => is_space2 b1 b2) (fun b3 b2 b1 => is_space3 b1 b2 b3)
                (string_rev (lstrip s))).

Definition lower_char (c : Ascii.ascii) : Ascii.ascii :=
  let n := Ascii.nat_of_ascii c in
  if ((65 <=? n) && (n <=? 90))%nat then Ascii.ascii_of_nat (n + 32) else c.

(** [s.lower()] on the ASCII letters (non-ASCII characters are kept; of
    those only U+0130 and U+212A have a lower case with an ASCII letter,
    [i] and [k]). *)
Fixpoint lower (s : string) : string :=
  match s with
  | EmptyString => EmptyString
  | String c s' => String (lower_char c) (lower s')
  end.

(** [sub in s] *)
Definition contains (s sub : string) : bool :=
  match String.index 0 sub s with Some _ => true | None => false end.

(** ["\n"] *)
Definition nl : string := String (Ascii.ascii_of_nat 10) EmptyString.

(** [str(n)] for a natural number. *)
Definition of_nat (n : nat) : string := pretty n.

End PyStr.

(* ------------------------------------------------------------------ *)
(** ** core/manager_v2.py : ManagerAgent._execute_phases_sequentially *)

Module Phases.
Import PyStr.

(** What the run publishes or calls, in order: event-bus publications
    (payloads reduced to the segment index, when there is one) and calls
    [worker.run(task=...)] together with the [strategic_plan] the request
    context holds at the time of the call. *)
Inductive MEvent :=
| Publish (name : string) (index : option nat)
| WorkerRun (worker : string) (task : string) (context_plan : Value).

(** The manager: its [name], the keys of [self.workers], and the keys
    among them whose worker is a nested [ManagerAgent]. *)
Record ManagerAgent := { name : string; workers : list string; manager_workers : list string }.

(** [is_manager_steps] *)
Definition is_manager_steps (m : ManagerAgent) : bool :=
  negb (String.eqb (name m) "") && negb (PyStr.contains (PyStr.lower (name m)) "orchestrator").

(** [ManagerAgent._result_status] *)
Definition result_status (result : Dict) : string :=
  if py_eq (get result "operation") (VStr "await_approval") then "pending"
  else if truthy (get result "error") || is_false_value (get result "success")
          || truthy (get result "error_message") then "failed"
  else match get result "payload" with
       | VDict p =>
           if truthy (get p "error") || is_false_value (get p "success")
           then "failed" else "success"
       | _ => "success"
       end.

(** The outcome of the phase loop: an approval bubbled up from a phase, or
    the workers run and their results (then aggregated). *)
Inductive PhasesOutcome :=
| PhasesApproval (result : Dict)
| PhasesDone (workers_run : list string) (results_run : list Dict).

Section Execute.
(** [worker.run(...)] of each worker: its result for a task, the plan the
    request context holds and the tool args passed to the delegation. *)
Variable worker_result : string -> string -> Value -> Dict -> Value.
(** [str(v)] and [ManagerAgent._format_previous_result]. *)
Variable py_str : Value -> string.
Variable format_previous_result : Dict -> string.

(** The result normalisation at the end of [_delegate_to_worker_parallel]. *)
Definition normalize_result (r : Value) : Dict :=
  match r with
  | VDict d => d
  | v => [("operation", VStr "display_message");
          ("payload", VDict [("message", VStr (py_str v))]);
          ("human_readable_summary", VStr (py_str v))]
  end.

(** [tool_args.get(key) if tool_args else None], kept when a list and
    set to [None] otherwise ([[]] here: both are falsy). *)
Definition list_arg (tool_args : Dict) (key : string) : list Value :=
  match get tool_args key with VList l => l | _ => [] end.

(** [ManagerAgent._create_error_response]: the events and the error dict. *)
Definition manager_error (message : string) : list MEvent * Dict :=
  ([Publish "error" None; Publish "manager_end" None],
   [("operation", VStr "display_message");
    ("payload", VDict [("message", VStr message); ("error", VBool true)]);
    ("human_readable_summary", VStr message)]).

(** [_delegate_to_worker_parallel] for a key of [self.workers], with the
    events it publishes around [worker.run] (the [delegation] and
    [observation] memory entries it appends are not modelled).  A nested
    manager given script steps or a suggested plan is not run. *)
Definition delegate (m : ManagerAgent) (worker_key task : string) (tool_args : Dict)
    (context_plan : Value) : list MEvent * Dict :=
  let nested := existsb (String.eqb worker_key) (manager_workers m) in
  let refuse (message : string) :=
    let '(evs, r) := manager_error message in
    ([Publish "delegation_planned" None; Publish "delegation_chosen" None] ++ evs, r) in
  let run :=
    ([Publish "delegation_planned" None; Publish "delegation_chosen" None;
      WorkerRun worker_key task context_plan; Publish "delegation_executed" None],
     normalize_result (worker_result worker_key task context_plan tool_args)) in
  if truthy (VList (list_arg tool_args "script")) then
    if nested then refuse ("Cannot execute script steps with manager worker '" +:+ worker_key +:+ "'")
    else run
  else if truthy (VList (list_arg tool_args "suggested_plan")) then
    if nested then refuse ("Cannot provide suggested plan to manager worker '" +:+ worker_key +:+ "'")
    else run
  else run.

(** The single-step plan [worker_strategic_plan] of a manager step. *)
Definition step_plan (phase : Dict) (idx total : nat) (phase_worker phase_task : string) : Value :=
  VDict [("primary_worker", VStr phase_worker); ("task_type", VStr "execution");
         ("phases", VList [VDict [("name", get_or phase "name" (VStr ("Step " +:+ PyStr.of_nat (S idx))));
                                  ("worker", VStr phase_worker); ("goals", VStr phase_task);
                                  ("notes", get_or phase "notes" (VStr ""))]]);
         ("rationale", VStr ("Executing manager step " +:+ PyStr.of_nat (S idx) +:+ "/"
                             +:+ PyStr.of_nat total +:+ ": "
                             +:+ py_str (get_or phase "name" (VStr "unnamed"))))].

(** [phase.get(key, "").strip()]; [None] is the AttributeError on a
    non-string value. *)
Definition get_stripped (phase : Dict) (key : string) : option string :=
  match get_or phase key (VStr "") with VStr s => Some (PyStr.strip s) | _ => None end.

(** The loop [for idx, phase in enumerate(phases)] of
    [_execute_phases_sequentially]; [strategic_plan] is the manager's plan
    (restored in the request context after each delegation).  The result
    is the events in order and the loop outcome; [None] is an exception. *)
Fixpoint phase_loop (m : ManagerAgent) (task : string) (tool_args : Dict)
    (strategic_plan : Value) (total : nat) (phases : list Dict) (idx : nat)
    (previous_result : option Dict) (workers_run : list string) (results_run : list Dict)
    : option (list MEvent * PhasesOutcome) :=
  match phases with
  | [] => Some ([], PhasesDone workers_run results_run)
  | phase :: rest =>
      match get_stripped phase "worker" with
      | None => None
      | Some phase_worker =>
      if String.eqb phase_worker "" || negb (existsb (String.eqb phase_worker) (workers m)) then
        phase_loop m task tool_args strategic_plan total rest (S idx) previous_result
                   workers_run results_run
      else
      match get_stripped phase "goals" with
      | None => None
      | Some goals =>
      let steps := is_manager_steps m in
      let term_capitalized := if steps then "Step" else "Phase" in
      let phase_task0 := if String.eqb goals "" then task else goals in
      let phase_task :=
        match previous_result with
        | Some prev =>
            if (0 <? idx)%nat && truthy (VDict prev) then
              phase_task0 +:+ PyStr.nl +:+ PyStr.nl +:+ "---" +:+ PyStr.nl +:+ PyStr.nl
              +:+ "Previous " +:+ term_capitalized +:+ " Output:" +:+ PyStr.nl
              +:+ format_previous_result prev
            else phase_task0
        | None => phase_task0
        end in
      let start_event := if steps then "manager_step_start" else "orchestrator_phase_start" in
      let end_event := if steps then "manager_step_end" else "orchestrator_phase_end" in
      let phase_tool_args := if (idx =? 0)%nat then tool_args else [] in
      let worker_plan := if steps then step_plan phase idx total phase_worker phase_task else VNone in
      let '(delegation_events, phase_result) := delegate m phase_worker phase_task phase_tool_args worker_plan in
      let here := [Publish start_event (Some idx)] ++ delegation_events
                  ++ [Publish end_event (Some idx)] in
      if py_eq (get phase_result "operation") (VStr "await_approval") then
        Some (here, PhasesApproval phase_result)
      else
        match phase_loop m task tool_args strategic_plan total rest (S idx) (Some phase_result)
                (workers_run ++ [phase_worker]) (results_run ++ [phase_result]) with
        | Some (evs, out) => Some (here ++ evs, out)
        | None => None
        end
      end
      end
  end.

Definition execute_phases_sequentially (m : ManagerAgent) (phases : list Dict) (task : string)
    (tool_args : Dict) (strategic_plan : Value) : option (list MEvent * PhasesOutcome) :=
  phase_loop m task tool_args strategic_plan (List.length phases) phases 0 None [] [].

End Execute.

(** The calls to workers in a trace, and the segment events of a trace. *)
Definition worker_calls (evs : list MEvent) : list MEvent :=
  List.filter (fun e => match e with WorkerRun _ _ _ => true | _ => false end) evs.

Definition segment_events (evs : list MEvent) : list MEvent :=
  List.filter (fun e => match e with
                        | Publish _ (Some _) => true
                        | _ => false
                        end) evs.

(** Following the spec's words: the task of a later phase,
    [goals + "\n\n--- Previous Phase Output ---\n" + previous]. *)
Definition spec_phase_task (goals previous : string) : string :=
  goals +:+ PyStr.nl +:+ PyStr.nl +:+ "--- Previous Phase Output ---" +:+ PyStr.nl +:+ previous.

(** The task the code gives a later segment:
    [goals + "\n\n---\n\nPrevious <Term> Output:\n" + previous]. *)
Definition code_phase_task (term_capitalized goals previous : string) : string :=
  goals +:+ nl +:+ nl +:+ "---" +:+ nl +:+ nl
  +:+ "Previous " +:+ term_capitalized +:+ " Output:" +:+ nl +:+ previous.

End Phases.

(* ------------------------------------------------------------------ *)
(** ** core/agent.py : Agent.run (planner mode) and Agent._run_script_mode *)

Module AgentRun.
Import Base.

(** What the run does observably, in order: event-bus publications (the
    [agent_end] status when one is passed explicitly, [None] when
    [build_agent_end_event] infers it from the result) and invocations
    [tool.execute] on the keyword arguments. *)
Inductive AEvent :=
| Publish (name : string) (status : option string)
| ToolRun (tool : string) (kwargs : Dict).

(** [tool.execute] on the keyword arguments returns a value or raises an exception of
    some type with some message. *)
Inductive ToolOutcome :=
| Returns (v : Value)
| Raises (exc_type message : string).

(** A registered tool: its [name], the validation of its [args_schema]
    ([model_validate(...).model_dump()], [None] for a [ValidationError];
    [Some] of the arguments when the tool has no schema) and [execute]. *)
Record Tool := mkTool {
  tname : string;
  validate : Dict -> option Dict;
  execute : Dict -> ToolOutcome
}.

(** The [Exception] objects [_execute_actions] returns instead of a result. *)
Inductive Failure :=
| NotFound (tool : string)
| ValidationFailed (tool : string)
| PolicyDenied (tool : string).

(** An element of the list [_execute_actions] returns. *)
Inductive ExecResult :=
| RExc (e : Failure)
| RVal (v : Value).

(** The agent's memory (the entries [self.memory.add] appends, read back by
    [get_history]) and the observable trace. *)
Record AgentState := mkState { mem : list Dict; trace : list AEvent }.

Definition add (e : Dict) (s : AgentState) : AgentState :=
  mkState (mem s ++ [e]) (trace s).

Definition emit (evs : list AEvent) (s : AgentState) : AgentState :=
  mkState (mem s) (trace s ++ evs).

Definition publish (name : string) (status : option string) (s : AgentState) : AgentState :=
  emit [Publish name status] s.

(** [FinalResponse(operation=..., payload=..., human_readable_summary=...)]:
    pydantic raises ([None]) unless the fields have their declared types. *)
Definition final_response_of (op payload hrs : Value) : option FinalResponse :=
  match op, payload, hrs with
  | VStr o, VDict p, VStr h => Some (mkFinalResponse o p h)
  | _, _, _ => None
  end.

(** [str(x)] of a string, [str(v)] otherwise. *)
Definition to_str (py_str : Value -> string) (v : Value) : string :=
  match v with VStr x => x | _ => py_str v end.

Fixpoint join (sep : string) (l : list string) : string :=
  match l with
  | [] => ""
  | [x] => x
  | x :: l' => x +:+ sep +:+ join sep l'
  end.

(** The outcome of one iteration of [while True]: the run returns, goes on
    to the next iteration, or an exception propagates. *)
Inductive Step :=
| Return (s : AgentState) (response : Dict)
| Continue (s : AgentState) (action_history : list (list (string * Dict)))
           (observation_history : list string)
| Raise.

Definition of_outcome (o : option (AgentState * Dict)) : Step :=
  match o with Some (s, r) => Return s r | None => Raise end.

(** [Agent._handle_final_response] *)
Definition handle_final_response (f : FinalResponse) (s : AgentState) : AgentState * Dict :=
  (publish "agent_end" None
     (add [("type", VStr FINAL); ("content", VStr (human_readable_summary f))] s),
   model_dump f).

(** [Agent._create_completion_response]; [result] is [VNone] when omitted. *)
Definition create_completion_response (message : string) (result : Value) (s : AgentState)
    : option (AgentState * Dict) :=
  match result with
  | VDict d =>
      if truthy result then
        match final_response_of (get_or d "operation" (VStr "display_message"))
                (get_or d "payload" (VDict [("message", VStr message)]))
                (get_or d "human_readable_summary" (VStr message)) with
        | Some f => Some (handle_final_response f s)
        | None => None
        end
      else Some (handle_final_response
                   (mkFinalResponse "display_message" [("message", VStr message)] message) s)
  | _ => Some (handle_final_response
                 (mkFinalResponse "display_message" [("message", VStr message)] message) s)
  end.

(** [Agent._create_error_response] *)
Definition create_error_response (message : string) (stagnation : bool) (s : AgentState)
    : AgentState * Dict :=
  let r := mkFinalResponse "display_message"
             [("message", VStr message); ("error", VBool true); ("stagnation", VBool stagnation)]
             message in
  (publish "agent_end" (Some "error") (add [("type", VStr ERROR); ("content", VStr message)] s),
   model_dump r).

(** The [FinalResponse] [Agent._handle_approval_request] builds. *)
Definition approval_final (req : Dict) : option FinalResponse :=
  if has_key req "operation" then
    final_response_of (get req "operation") (get_or req "payload" (VDict req))
      (get_or req "human_readable_summary" (VStr "Awaiting approval"))
  else
    final_response_of (VStr "await_approval") (VDict req)
      (get_or req "message" (VStr "Awaiting approval")).

(** [Agent._handle_approval_request] *)
Definition handle_approval_request (req : Dict) (s : AgentState) : option (AgentState * Dict) :=
  match approval_final req with
  | Some f => Some (publish "agent_end" (Some "pending") s, model_dump f)
  | None => None
  end.

(** [Agent._handle_checkpoint] *)
Definition handle_checkpoint (f : FinalResponse) (s : AgentState) : AgentState * Dict :=
  (publish "agent_end" None s, model_dump f).

(** The structured error dict [execute_tool] returns when the tool raises. *)
Definition error_payload (tool exc_type message : string) : Dict :=
  [("success", VBool false); ("error", VBool true); ("error_message", VStr message);
   ("error_type", VStr exc_type); ("tool", VStr tool);
   ("message", VStr ("❌ ERROR: " +:+ message))].

(** [Agent._is_script_step_failure] *)
Definition is_script_step_failure (r : ExecResult) : bool :=
  match r with
  | RExc _ => true
  | RVal (VDict d) =>
      truthy (get d "error") || is_false_value (get d "success")
      || match get d "payload" with
         | VDict p => truthy (get p "error") || is_false_value (get p "success")
         | _ => false
         end
  | RVal _ => false
  end.

(** [actions = [plan_outcome] if isinstance(plan_outcome, Action) else
    plan_outcome], as a list of actions when every element is one: iterating
    a [FinalResponse] yields tuples, a string its characters, a dict its
    keys, a list its values, none of them an [Action]. *)
Definition actions_of (po : PlanOutcome) : option (list Action) :=
  match po with
  | OAction a => Some [a]
  | OActions l => Some l
  | OFinal _ => None
  | OOther v =>
      match v with
      | VStr "" | VList [] | VDict [] => Some []
      | _ => None
      end
  end.

(** Whether [for a in actions] runs at all: a [FinalResponse] (a pydantic
    model), a string, a list or a dict is iterable; [None], a bool or an
    int raises [TypeError] in the [complete_task] guard. *)
Definition iterable_outcome (po : PlanOutcome) : bool :=
  match po with
  | OOther (VNone | VBool _ | VInt _) => false
  | _ => true
  end.

(** The guard against planning [complete_task] again: the batch has a
    [complete_task] action and the history an action entry for it. *)
Definition replans_completed (actions : list Action) (h : list Dict) : bool :=
  existsb (fun a => String.eqb (tool_name a) "complete_task") actions
  && existsb (fun e => py_eq (get e "type") (VStr ACTION)
                       && py_eq (get e "tool") (VStr "complete_task")) h.

(** [next((entry for entry in reversed(history) if entry.get("type") == ty), None)] *)
Definition last_entry_of_type (ty : string) (h : list Dict) : option Dict :=
  List.find (fun e => py_eq (get e "type") (VStr ty)) (List.rev h).

Section Agent.
(** The agent's collaborators.  The policies close over the run's
    [policy_context]; [detect_stagnation] sees the whole action and
    observation histories (the bounded deques the code passes are their
    last entries). *)
Variable tools : string -> option Tool.
(** The [allowed] flag of [PolicyEngine.get().evaluate(tool_name, kwargs)];
    [None] when the import, [get()] or [evaluate] raises. *)
Variable policy_evaluate : string -> Dict -> option bool.
Variable failure_str : Failure -> string.
Variable py_str : Value -> string.
Variable plan : nat -> list Dict -> PlanOutcome.
Variable should_terminate : nat -> PlanOutcome -> list Dict -> bool.
Variable detect_stagnation : list (list (string * Dict)) -> list string -> option string.
Variable requires_approval : string -> Dict -> bool.
Variable create_approval_request : string -> Dict -> Dict.
Variable is_complete : Value -> list Dict -> bool.
Variable should_checkpoint : Value -> nat -> Value -> bool.
Variable create_checkpoint_response : Value -> FinalResponse.
Variable convert_get_tool_result_to_message : string -> Dict -> Dict -> FinalResponse.
(** The converter cascade after completion detection ([None] when it falls
    through to [_create_completion_response]). *)
Variable convert_completion : Action -> Value -> option FinalResponse.

(** [Agent._handle_execution_errors] *)
Definition handle_execution_errors (results : list ExecResult) (s : AgentState)
    : AgentState * Dict :=
  let msgs := List.flat_map (fun r => match r with RExc e => [failure_str e] | RVal _ => [] end)
                results in
  let msg := "Errors during execution: " +:+ join "; " msgs in
  create_error_response msg false
    (add [("type", VStr ERROR); ("content", VStr msg)] (publish "error" None s)).

(** The validation pass of [_execute_actions] for one action. *)
Definition prepare (a : Action) : Failure + (Tool * Dict) :=
  match tools (tool_name a) with
  | None => inl (NotFound (tool_name a))
  | Some t =>
      match validate t (tool_args a) with
      | None => inl (ValidationFailed (tname t))
      | Some kwargs => inr (t, kwargs)
      end
  end.

(** [allowed] after the [try]/[except Exception: allowed, deny_msg = True, None]
    around the policy evaluation: the check fails open. *)
Definition policy_allowed (r : option bool) : bool :=
  match r with Some allowed => allowed | None => true end.

(** [execute_tool] inside [_execute_actions]: the events it publishes and
    its result.  (The executed signature it records in the job store is
    not modelled.) *)
Definition execute_tool (a : Action) (item : Failure + (Tool * Dict)) : list AEvent * ExecResult :=
  match item with
  | inl e => ([], RExc e)
  | inr (t, kwargs) =>
      if policy_allowed (policy_evaluate (tool_name a) kwargs) then
        match execute t kwargs with
        | Returns v =>
            ([Publish "worker_tool_call" None; ToolRun (tname t) kwargs;
              Publish "worker_tool_result" None; Publish "action_executed" None], RVal v)
        | Raises ty msg =>
            ([Publish "worker_tool_call" None; ToolRun (tname t) kwargs; Publish "error" None;
              Publish "worker_tool_result" None], RVal (VDict (error_payload (tname t) ty msg)))
        end
      else
        ([Publish "worker_tool_call" None; Publish "policy_denied" None;
          Publish "worker_tool_result" None], RExc (PolicyDenied (tname t)))
  end.

(** [Agent._execute_actions]: the tools run concurrently; the trace lists
    their events in the order of the actions, the results are in that
    order as [asyncio.gather] returns them. *)
Definition execute_actions (actions : list Action) : list AEvent * list ExecResult :=
  let rs := map (fun a => execute_tool a (prepare a)) actions in
  (List.flat_map fst rs, map snd rs).

(** The results when none is an [Exception]. *)
Fixpoint values_of (results : list ExecResult) : option (list Value) :=
  match results with
  | [] => Some []
  | RExc _ :: _ => None
  | RVal v :: rest => match values_of rest with Some vs => Some (v :: vs) | None => None end
  end.

Definition action_entry (a : Action) : Dict :=
  [("type", VStr ACTION); ("tool", VStr (tool_name a)); ("args", VDict (tool_args a))].

Definition error_observation (tool : string) (d : Dict) : string :=
  "❌ ERROR: Tool '" +:+ tool +:+ "' failed!" +:+ PyStr.nl +:+ "Error: "
  +:+ to_str py_str (get_or d "error_message" (VStr "Unknown error")).

(** The observation entry recorded for a result, and the observation
    history it extends. *)
Definition record_observation (a : Action) (r : Value) (s : AgentState) (oh : list string)
    : AgentState * list string :=
  match r with
  | VDict d =>
      if truthy (get d "error") then
        let e := error_observation (tool_name a) d in
        (add [("type", VStr OBSERVATION); ("content", VStr e)] s, oh ++ [e])
      else (add [("type", VStr OBSERVATION); ("content", r)] s, oh ++ [to_str py_str r])
  | _ => (add [("type", VStr OBSERVATION); ("content", r)] s, oh ++ [to_str py_str r])
  end.

(** The loop [for action, result in zip(actions, results)] of [Agent.run]:
    either the run returns ([inl]) or the loop ends ([inr]) with the
    observation history. *)
Fixpoint record_results (pairs : list (Action * Value)) (s : AgentState) (oh : list string)
    : option ((AgentState * Dict) + (AgentState * list string)) :=
  match pairs with
  | [] => Some (inr (s, oh))
  | (a, r) :: rest =>
      let '(s2, oh2) := record_observation a r (add (action_entry a) s) oh in
      let go_on := record_results rest s2 oh2 in
      if String.eqb (tool_name a) "complete_task" then
        match r with
        | VDict d =>
            if is_true_value (get d "completed") then
              if has_key d "operation" && has_key d "payload" then
                match final_response_of (get_or d "operation" (VStr "display_message"))
                        (get_or d "payload" (VDict []))
                        (py_or (get d "human_readable_summary")
                               (get_or d "summary" (VStr "Task completed."))) with
                | Some f => Some (inl (handle_final_response f s2))
                | None => None
                end
              else Some (inl (handle_final_response
                                (convert_get_tool_result_to_message (tool_name a) d (tool_args a))
                                s2))
            else go_on
        | _ => go_on
        end
      else go_on
  end.

(** The check at the top of each iteration after the first: the last
    action was [complete_task] and the last observation a completed
    [FinalResponse]-shaped dict.  [None]: no early return. *)
Definition resume_check (iteration : nat) (s : AgentState) : option Step :=
  let h := mem s in
  if (1 <? iteration)%nat && match h with [] => false | _ => true end then
    match last_entry_of_type ACTION h with
    | Some la =>
        if truthy (VDict la) && py_eq (get la "tool") (VStr "complete_task") then
          match last_entry_of_type OBSERVATION h with
          | Some lo =>
              if truthy (VDict lo) then
                match get lo "content" with
                | VDict c =>
                    if is_true_value (get c "completed") && has_key c "operation"
                       && has_key c "payload" then
                      Some (match final_response_of (get_or c "operation" (VStr "display_message"))
                                    (get_or c "payload" (VDict []))
                                    (py_or (get c "human_readable_summary")
                                           (get_or c "summary" (VStr "Task completed."))) with
                            | Some f => let '(s', r) := handle_final_response f s in Return s' r
                            | None => Raise
                            end)
                    else None
                | _ => None
                end
              else None
          | None => None
          end
        else None
    | None => None
    end
  else None.

(** [next((r for r in results if isinstance(r, dict) and r.get("await_approval")), None)] *)
Fixpoint awaiting_of (vals : list Value) : option Dict :=
  match vals with
  | [] => None
  | VDict d :: rest => if truthy (get d "await_approval") then Some d else awaiting_of rest
  | _ :: rest => awaiting_of rest
  end.

Definition last_value (vals : list Value) : Value :=
  match List.rev vals with [] => VNone | v :: _ => v end.

(** The part of an iteration after the actions are recorded. *)
Definition after_recording (iteration : nat) (actions : list Action) (vals : list Value)
    (s : AgentState) (ah : list (list (string * Dict))) (oh : list string) : Step :=
  let last_result := last_value vals in
  if truthy last_result && is_complete last_result (mem s) then
    match List.rev actions with
    | la :: _ =>
        match convert_completion la last_result with
        | Some f => let '(s', r) := handle_final_response f s in Return s' r
        | None => of_outcome (create_completion_response "Task completed successfully." last_result s)
        end
    | [] => of_outcome (create_completion_response "Task completed successfully." last_result s)
    end
  else
  match detect_stagnation ah oh with
  | Some reason =>
      let '(s', r) := create_error_response ("Loop detected: " +:+ reason) true s in Return s' r
  | None =>
  let last_tool := match List.rev actions with la :: _ => VStr (tool_name la) | [] => VNone end in
  if truthy last_result && should_checkpoint last_result iteration last_tool then
    let '(s', r) := handle_checkpoint (create_checkpoint_response last_result) s in Return s' r
  else
  match awaiting_of vals with
  | Some d => of_outcome (handle_approval_request d s)
  | None => Continue s ah oh
  end
  end.

(** One iteration of the [while True] loop of [Agent.run], with
    [iteration_count] already incremented. *)
Definition iteration (it : nat) (s : AgentState) (ah : list (list (string * Dict)))
    (oh : list string) : Step :=
  match resume_check it s with
  | Some st => st
  | None =>
  let po := plan it (mem s) in
  if should_terminate it po (mem s) then
    match po with
    | OFinal f => let '(s', r) := handle_final_response f s in Return s' r
    | _ => of_outcome (create_completion_response
                         "Task completed (detected by termination policy)." VNone s)
    end
  else
  match actions_of po with
  | None =>
      (* An iterable of non-actions passes the guard (no element is an
         [Action]) and reaches the loop check; the signature's
         [a.tool_name] then raises. *)
      if iterable_outcome po then
        match detect_stagnation ah oh with
        | Some reason =>
            let '(s', r) := create_error_response ("Loop detected: " +:+ reason) true s in Return s' r
        | None => Raise
        end
      else Raise
  | Some actions =>
  if replans_completed actions (mem s) then
    of_outcome (create_completion_response "Task already completed. Stopping execution." VNone s)
  else
  match detect_stagnation ah oh with
  | Some reason =>
      let '(s', r) := create_error_response ("Loop detected: " +:+ reason) true s in Return s' r
  | None =>
  let ah1 := ah ++ [map (fun a => (tool_name a, tool_args a)) actions] in
  let s1 := emit (map (fun _ => Publish "action_planned" None) actions) s in
  match List.find (fun a => requires_approval (tool_name a) (tool_args a)) actions with
  | Some a => of_outcome (handle_approval_request
                            (create_approval_request (tool_name a) (tool_args a)) s1)
  | None =>
  let '(evs, results) := execute_actions actions in
  let s2 := emit evs s1 in
  match values_of results with
  | None => let '(s', r) := handle_execution_errors results s2 in Return s' r
  | Some vals =>
      match record_results (combine actions vals) s2 oh with
      | None => Raise
      | Some (inl (s3, r)) => Return s3 r
      | Some (inr (s3, oh3)) => after_recording it actions vals s3 ah1 oh3
      end
  end
  end
  end
  end
  end.

(** The loop itself, for at most [fuel] iterations ([None]: an exception,
    or the fuel ran out). *)
Fixpoint planner_loop (fuel it : nat) (s : AgentState) (ah : list (list (string * Dict)))
    (oh : list string) : option (AgentState * Dict) :=
  match fuel with
  | O => None
  | S fuel' =>
      match iteration (S it) s ah oh with
      | Return s' r => Some (s', r)
      | Raise => None
      | Continue s' ah' oh' => planner_loop fuel' (S it) s' ah' oh'
      end
  end.

(** [Agent.run] in planner mode, from the [agent_start] event (execution
    context and suggested plan not modelled). *)
Definition run_planner (fuel : nat) (task : string) (s : AgentState) : option (AgentState * Dict) :=
  planner_loop fuel 0 (add [("type", VStr TASK); ("content", VStr task)]
                          (publish "agent_start" None s)) [] [].

(** The loop [for idx, raw_step in enumerate(script, 1)] of
    [_run_script_mode]: the state, the step records and whether a step
    failed (the loop then stops).  [None] covers a step whose tool name is
    not a string or whose args are not a dict, which the model leaves out. *)
Fixpoint script_loop (idx : nat) (steps : list Dict) (s : AgentState) (records : list Value)
    : option (AgentState * list Value * bool) :=
  match steps with
  | [] => Some (s, records, false)
  | raw :: rest =>
      let worker_hint := py_or (get raw "worker") (get raw "worker_key") in
      let tool_name_v := py_or (get raw "tool_name") (get raw "tool") in
      let args := py_or (get raw "args") (VDict []) in
      let step_name := py_or (get raw "name")
                         (py_or (get raw "description") (VStr ("Step " +:+ PyStr.of_nat idx))) in
      let notes := get raw "notes" in
      if negb (truthy tool_name_v) then
        Some (s, records ++ [VDict [("index", VInt (Z.of_nat idx)); ("name", step_name);
                                    ("worker", worker_hint); ("tool", VNone);
                                    ("status", VStr "failed");
                                    ("error", VStr "Missing tool_name in script step")]], true)
      else
      match tool_name_v, args with
      | VStr t, VDict a =>
          let s1 := add [("type", VStr ACTION); ("tool", tool_name_v); ("step", step_name);
                         ("script", VBool true); ("args", args)]
                      (publish "action_planned" None s) in
          let '(evs, results) := execute_actions [mkAction t a] in
          let s2 := emit evs s1 in
          let result := match results with r :: _ => r | [] => RVal VNone end in
          let failure := is_script_step_failure result in
          let result_payload := match result with
                                | RExc e => VDict [("error", VStr (failure_str e))]
                                | RVal v => v
                                end in
          let s3 := add [("type", VStr OBSERVATION); ("content", result_payload);
                         ("step", step_name); ("script", VBool true)] s2 in
          let record := VDict [("index", VInt (Z.of_nat idx)); ("name", step_name);
                               ("worker", worker_hint); ("tool", tool_name_v); ("notes", notes);
                               ("status", VStr (if failure then "failed" else "success"));
                               ("args", args); ("result", result_payload)] in
          if failure then Some (s3, records ++ [record], true)
          else script_loop (S idx) rest s3 (records ++ [record])
      | _, _ => None
      end
  end.

(** [Agent._run_script_mode] ([script_metadata or {}] as [meta]). *)
Definition run_script_mode (task : string) (script : list Dict) (meta : Dict) (s : AgentState)
    : option (AgentState * Dict) :=
  match script with
  | [] => Some (create_error_response "Script execution requested but no steps were provided"
                  false s)
  | _ =>
      let goal_text := py_or (get meta "goal") (VStr task) in
      let thought := get meta "thought" in
      match script_loop 1 script s [] with
      | None => None
      | Some (s', records, failed) =>
          let overall_status := if failed then "FAILED" else "SUCCESS" in
          let summary := "Executed " +:+ PyStr.of_nat (List.length records)
                         +:+ " scripted step(s) (" +:+ overall_status +:+ ")" in
          let payload :=
            [("message", VStr summary); ("overall_status", VStr overall_status);
             ("script_goal", goal_text); ("script_steps", VList records)]
            ++ (if truthy thought then [("script_thought", thought)] else [])
            ++ (if truthy (get meta "notes") then [("script_notes", get meta "notes")] else []) in
          create_completion_response summary
            (VDict [("operation", VStr "display_message"); ("payload", VDict payload);
                    ("human_readable_summary", VStr summary)]) s'
      end
  end.

End Agent.

(** The tool invocations of a trace. *)
Definition tool_runs (evs : list AEvent) : list AEvent :=
  List.filter (fun e => match e with ToolRun _ _ => true | _ => false end) evs.

(** The action entries of a memory. *)
Definition action_entries (h : list Dict) : list Dict :=
  List.filter (fun e => py_eq (get e "type") (VStr ACTION)) h.

(** A tool invocation of a registered tool, on arguments its schema
    validated, that the policy engine did not deny (it allowed them, or its
    evaluation raised). *)
Definition tool_run_allowed (tools : string -> option Tool) (policy_evaluate : string -> Dict -> option bool)
    (e : AEvent) : Prop :=
  match e with
  | ToolRun tool kwargs =>
      exists name args t, tools name = Some t /\ tname t = tool
                          /\ validate t args = Some kwargs /\ policy_evaluate name kwargs <> Some false
  | Publish _ _ => True
  end.

(** [s'] is a later state than [s]: memory and trace only grew at their
    ends, and each tool invocation added is allowed. *)
Definition extends (tools : string -> option Tool) (policy_evaluate : string -> Dict -> option bool)
    (s s' : AgentState) : Prop :=
  exists m evs, mem s' = mem s ++ m /\ trace s' = trace s ++ evs
                /\ Forall (tool_run_allowed tools policy_evaluate) evs.

(** The last event of the trace is an [agent_end] publication. *)
Definition ends_with_agent_end (s : AgentState) : Prop :=
  exists status, last (trace s) = Some (Publish "agent_end" status).

(** What an iteration outcome keeps from the state [s] it started in: a
    returned state extends [s] and ends with [agent_end], a continued state
    extends [s]. *)
Definition step_ok (tools : string -> option Tool) (policy_evaluate : string -> Dict -> option bool)
    (s : AgentState) (st : Step) : Prop :=
  match st with
  | Return s' _ => extends tools policy_evaluate s s' /\ ends_with_agent_end s'
  | Continue s' _ _ => extends tools policy_evaluate s s'
  | Raise => True
  end.

End AgentRun.

(* ------------------------------------------------------------------ *)
(** ** policies/default.py : DefaultCompletionDetector *)

Module Completion.

(** The attributes [DefaultCompletionDetector.__init__] sets (after the
    [or] defaults). *)
Record DefaultCompletionDetector := {
  indicators : list string;
  check_final_response : bool;
  check_operation_types : list string;
  check_response_validation : bool;
  check_history_depth : Z
}.

(** [DefaultCompletionDetector()] *)
Definition default_detector : DefaultCompletionDetector := {|
  indicators := ["completed"; "success"; "done"; "finished"; "task complete"];
  check_final_response := true;
  check_operation_types := ["display_message"; "model_ops"; "display_table"];
  check_response_validation := true;
  check_history_depth := 10 |}.

(** [any(ind in s for ind in self.indicators)] *)
Definition has_indicator (d : DefaultCompletionDetector) (s : string) : bool :=
  existsb (fun ind => PyStr.contains s ind) (indicators d).

(** [r.get(key, "").lower()]; [None] is the AttributeError on a non-string. *)
Definition get_lower (r : Dict) (key : string) : option string :=
  match get_or r key (VStr "") with VStr x => Some (PyStr.lower x) | _ => None end.

(** [DefaultCompletionDetector._get_current_turn_history] *)
Definition get_current_turn_history (history : list Dict) : list Dict :=
  match history with
  | [] => []
  | _ =>
      let last_task_idx := HistoryFilters.find_last_task_marker history in
      if last_task_idx <? 0 then history
      else py_slice_from (last_task_idx + 1) history
  end.

(** The checks of [is_complete] on a dict [result]; [None] is an
    AttributeError ([.get] on a non-dict [response_validation], [.lower()]
    on a non-string field). *)
Definition result_complete (d : DefaultCompletionDetector) (r : Dict) : option bool :=
  if is_true_value (get r "completed") then Some true else
  let validation_hit :=
    if check_response_validation d then
      match get_or r "response_validation" (VDict []) with
      | VDict v => Some (is_true_value (get v "complete"))
      | _ => None
      end
    else Some false in
  match validation_hit with
  | None => None
  | Some true => Some true
  | Some false =>
  let operation := get r "operation" in
  let operation_hit :=
    if existsb (fun t => py_eq operation (VStr t)) (check_operation_types d) then
      match get_lower r "human_readable_summary" with
      | Some summary => Some (has_indicator d summary)
      | None => None
      end
    else Some false in
  match operation_hit with
  | None => None
  | Some true => Some true
  | Some false =>
      match get_lower r "message", get_lower r "summary", get_lower r "final_result" with
      | Some message, Some summary, Some final_result =>
          Some (existsb (has_indicator d) [message; summary; final_result])
      | _, _, _ => None
      end
  end
  end.

(** The body of [for entry in reversed(...)] for one history entry
    ([str(v)] is [py_str]). *)
Definition entry_complete (d : DefaultCompletionDetector) (py_str : Value -> string) (entry : Dict)
    : bool :=
  if py_eq (get entry "type") (VStr "action") && py_eq (get entry "tool") (VStr "complete_task")
  then true
  else if py_eq (get entry "type") (VStr "final")
          && has_indicator d (PyStr.lower (AgentRun.to_str py_str (get_or entry "content" (VStr ""))))
  then true
  else if py_eq (get entry "type") (VStr "observation") then
    match get entry "content" with
    | VDict c => is_true_value (get c "completed")
    | _ => false
    end
    || has_indicator d (PyStr.lower (AgentRun.to_str py_str (get_or entry "content" (VStr ""))))
  else false.

(** [DefaultCompletionDetector.is_complete] (the [context] argument is not
    read). *)
Definition is_complete (d : DefaultCompletionDetector) (py_str : Value -> string)
    (result : Value) (history : list Dict) : option bool :=
  let result_hit := match result with VDict r => result_complete d r | _ => Some false end in
  match result_hit with
  | None => None
  | Some true => Some true
  | Some false =>
      let current_turn_history := get_current_turn_history history in
      Some (existsb (entry_complete d py_str)
              (List.rev (py_slice_from (- check_history_depth d) current_turn_history)))
  end.

(** The detector with [check_history_depth = n]. *)
Definition with_depth (d : DefaultCompletionDetector) (n : Z) : DefaultCompletionDetector :=
  {| indicators := indicators d; check_final_response := check_final_response d;
     check_operation_types := check_operation_types d;
     check_response_validation := check_response_validation d; check_history_depth := n |}.

End Completion.

(* ------------------------------------------------------------------ *)
(** ** policies/default.py : DefaultLoopPreventionPolicy *)

Module LoopPrevention.

(** [set(l)] of hashable values: equal values collapse to one element. *)
Fixpoint py_set {A} (eq : A -> A -> bool) (l : list A) : list A :=
  match l with
  | [] => []
  | x :: l' => let s := py_set eq l' in if existsb (eq x) s then s else x :: s
  end.

(** The attributes [DefaultLoopPreventionPolicy.__init__] sets;
    [detector_is_complete] is [self.completion_detector.is_complete] ([None]:
    it raises). *)
Record DefaultLoopPreventionPolicy := {
  enabled : bool;
  action_window : Z;
  observation_window : Z;
  repetition_threshold : Z;
  check_completion_in_loop : bool;
  detector_is_complete : Value -> list Dict -> option bool;
  on_stagnation : string
}.

Section Detect.
(** The action signatures (tuples) with Python [==] and [str], [str] of
    other values, and [json.loads] ([None]: it raises). *)
Variable Act : Type.
Variable act_eq : Act -> Act -> bool.
Variable act_str : Act -> string.
Variable py_str : Value -> string.
Variable json_loads : string -> option Value.

(** The first check of [detect_stagnation]: the task looks complete. *)
Definition completion_fires (p : DefaultLoopPreventionPolicy) (observation_history : list Value)
    : option bool :=
  if check_completion_in_loop p then
    match List.rev observation_history with
    | [] => Some false
    | last_obs :: _ =>
        let obs_to_check :=
          match last_obs with
          | VStr x => match json_loads x with Some v => v | None => last_obs end
          | _ => last_obs
          end in
        detector_is_complete p obs_to_check []
    end
  else Some false.

Definition stagnation_message (n : Z) (action_desc : string) : string :=
  "Stagnation: Same action pattern repeated " +:+ pretty n
  +:+ " times with identical results. Action: " +:+ action_desc.

(** [DefaultLoopPreventionPolicy.detect_stagnation]: [Some r] is the
    returned [Optional[str]], [None] an exception. *)
Definition detect_stagnation (p : DefaultLoopPreventionPolicy) (action_history : list Act)
    (observation_history : list Value) : option (option string) :=
  if negb (enabled p) then Some None else
  match completion_fires p observation_history with
  | None => None
  | Some true => Some (Some "Task appears complete but agent continues execution")
  | Some false =>
  let n := repetition_threshold p in
  if Z.of_nat (List.length action_history) <? n then Some None else
  let recent_actions := py_slice_from (- n) action_history in
  if (List.length (py_set act_eq recent_actions) =? 1)%nat then
    if n <=? Z.of_nat (List.length observation_history) then
      let recent_obs := py_slice_from (- n) observation_history in
      let obs_strs := map (AgentRun.to_str py_str) recent_obs in
      if (List.length (py_set String.eqb obs_strs) =? 1)%nat then
        let action_desc := match recent_actions with a :: _ => act_str a | [] => "unknown" end in
        Some (Some (stagnation_message n action_desc))
      else Some None
    else Some None
  else Some None
  end.
End Detect.

(** All elements of [l] equal under [eq]. *)
Definition all_equal {A} (eq : A -> A -> bool) (l : list A) : Prop :=
  forall x y, In x l -> In y l -> eq x y = true.

End LoopPrevention.

(* ------------------------------------------------------------------ *)
(** ** policies/default.py : DefaultCheckpointPolicy *)

Module Checkpoint.
Import Base.

(** The attributes [DefaultCheckpointPolicy.__init__] sets (the two sets
    as lists of their strings). *)
Record DefaultCheckpointPolicy := {
  enabled : bool;
  checkpoint_after_iterations : option Z;
  checkpoint_on_operations : list string;
  checkpoint_on_tools : list string
}.

(** [v in s] for a set of strings; [None] is the TypeError of an
    unhashable [v]. *)
Definition in_str_set (v : Value) (s : list string) : option bool :=
  match v with
  | VStr x => Some (existsb (String.eqb x) s)
  | VNone | VBool _ | VInt _ => Some false
  | VList _ | VDict _ => None
  end.

(** [DefaultCheckpointPolicy.should_checkpoint] *)
Definition should_checkpoint (p : DefaultCheckpointPolicy) (result : Value) (iteration : Z)
    (context : Dict) : option bool :=
  if negb (enabled p) then Some false else
  if match checkpoint_after_iterations p with
     | Some n => truthy (VInt n) && (n <=? iteration)
     | None => false
     end then Some true else
  let operation_hit :=
    match result with
    | VDict r => in_str_set (get r "operation") (checkpoint_on_operations p)
    | _ => Some false
    end in
  match operation_hit with
  | None => None
  | Some true => Some true
  | Some false =>
      let last_tool := get context "last_tool" in
      if truthy last_tool then in_str_set last_tool (checkpoint_on_tools p) else Some false
  end.

(** [d[k] = v] on a dict: the binding is updated in place, or added last. *)
Fixpoint dict_set (d : Dict) (k : string) (v : Value) : Dict :=
  match d with
  | [] => [(k, v)]
  | (k', v') :: d' => if String.eqb k k' then (k', v) :: d' else (k', v') :: dict_set d' k v
  end.

Definition checkpoint_message : string := "Intermediate result - review before continuing".

(** [DefaultCheckpointPolicy.create_checkpoint_response]; [None] is the
    TypeError of [**] on a non-mapping [payload], or pydantic's
    ValidationError. *)
Definition create_checkpoint_response (py_str : Value -> string) (result : Value)
    : option FinalResponse :=
  match result with
  | VDict r =>
      match get_or r "payload" (VDict []) with
      | VDict p =>
          AgentRun.final_response_of (get_or r "operation" (VStr "display_message"))
            (VDict (dict_set (dict_set p "checkpoint" (VBool true))
                             "message" (VStr checkpoint_message)))
            (get_or r "human_readable_summary" (VStr "Intermediate checkpoint"))
      | _ => None
      end
  | _ =>
      Some (mkFinalResponse "display_message"
              [("message", VStr (AgentRun.to_str py_str result)); ("checkpoint", VBool true)]
              "Intermediate checkpoint")
  end.

(** The policy with [checkpoint_after_iterations = n]. *)
Definition with_after (p : DefaultCheckpointPolicy) (n : option Z) : DefaultCheckpointPolicy :=
  {| enabled := enabled p; checkpoint_after_iterations := n;
     checkpoint_on_operations := checkpoint_on_operations p;
     checkpoint_on_tools := checkpoint_on_tools p |}.

End Checkpoint.

(* ------------------------------------------------------------------ *)
(** ** policies/default.py : DefaultFollowUpPolicy *)

Module FollowUp.

(** The attributes [DefaultFollowUpPolicy.__init__] sets;
    [detector_is_complete] is [self.completion_detector.is_complete]. *)
Record DefaultFollowUpPolicy := {
  enabled : bool;
  max_phases : option Z;
  check_completion : bool;
  detector_is_complete : Value -> list Dict -> option bool;
  stop_on_completion : bool
}.

(** [DefaultFollowUpPolicy.should_follow_up]; [None] is an exception of
    the detector. *)
Definition should_follow_up (p : DefaultFollowUpPolicy) (primary_result : Dict)
    (phases : list Dict) (completed_phases : Z) : option bool :=
  let rest :=
    let n := Z.of_nat (List.length phases) in
    match max_phases p with
    | Some m => if m <? n - completed_phases then Some false else Some (completed_phases <? n)
    | None => Some (completed_phases <? n)
    end in
  if negb (enabled p) then Some false else
  if stop_on_completion p && check_completion p then
    match detector_is_complete p (VDict primary_result) [] with
    | None => None
    | Some true => Some false
    | Some false => rest
    end
  else rest.

End FollowUp.

(* ------------------------------------------------------------------ *)
(** ** core/agent.py : Agent._is_success_result and core/event_payloads.py :
    _infer_status *)

Module Results.

(** [Agent._is_success_result] on a value or on an [Exception] object
    (which is not a dict). *)
Definition is_success_result (result : AgentRun.ExecResult) : bool :=
  match result with
  | AgentRun.RVal (VDict d) =>
      if truthy (get d "error") || is_false_value (get d "success")
         || truthy (get d "error_message") then false
      else match get d "payload" with
           | VDict p => negb (truthy (get p "error") || is_false_value (get p "success"))
           | _ => true
           end
  | _ => true
  end.

(** [_infer_status(result, default)] *)
Definition infer_status (result : Value) (default : string) : string :=
  match result with
  | VDict d =>
      if py_eq (get d "operation") (VStr "await_approval") || is_true_value (get d "pending")
      then "pending"
      else if truthy (get d "error") || is_false_value (get d "success")
              || truthy (get d "error_message") then "error"
      else match get d "payload" with
           | VDict p => if truthy (get p "error") || is_false_value (get p "success")
                        then "error" else default
           | _ => default
           end
  | _ => default
  end.

End Results.

(* ================================================================== *)
(** * Proofs *)

Module HistoryFiltersFacts.
Import HistoryFilters.

Lemma filter_filter_same {A} (p : A -> bool) (l : list A) :
  List.filter p (List.filter p l) = List.filter p l.
Proof.
  induction l as [|x l IH]; simpl; [done|].
  destruct (p x) eqn:Hp; simpl; [rewrite Hp, IH|]; done.
Qed.

Lemma filter_all_true {A} (p : A -> bool) (l : list A) :
  Forall (fun x => p x = true) l -> List.filter p l = l.
Proof.
  induction 1 as [|x l Hx _ IH]; simpl; [done|]. by rewrite Hx, IH.
Qed.

Lemma Forall_filter_true {A} (p : A -> bool) (l : list A) :
  Forall (fun x => p x = true) (List.filter p l).
Proof.
  induction l as [|x l IH]; simpl; [constructor|].
  destruct (p x) eqn:Hp; [constructor|]; done.
Qed.

Lemma py_slice_from_sublist {A} (P : A -> Prop) (start : Z) (l : list A) :
  Forall P l -> Forall P (py_slice_from start l).
Proof. intros H. unfold py_slice_from. by apply Forall_drop. Qed.

Lemma py_slice_from_length_last {A} (n : Z) (l : list A) :
  0 <= n -> (Z.of_nat (List.length (py_slice_from (- n) l)) <= n)%Z
            \/ (n = 0 /\ py_slice_from (- n) l = l).
Proof.
  intros Hn. unfold py_slice_from.
  destruct (Z.eq_dec n 0) as [->|Hn0].
  - right. split; [done|]. simpl. by rewrite Z.min_l by lia.
  - left. destruct (Z.ltb_spec (- n) 0); [|lia].
    rewrite length_drop. lia.
Qed.

(** Taking the last [n] elements twice is taking them once. *)
Lemma py_slice_from_neg_idem {A} (n : Z) (l : list A) :
  0 <= n -> py_slice_from (- n) (py_slice_from (- n) l) = py_slice_from (- n) l.
Proof.
  intros Hn.
  destruct (py_slice_from_length_last n l Hn) as [Hlen|[-> Heq]].
  - set (l' := py_slice_from (- n) l) in *.
    unfold py_slice_from at 1.
    destruct (Z.ltb_spec (- n) 0).
    + rewrite Z.max_l by lia. done.
    + assert (n = 0) by lia. subst n. simpl. by rewrite Z.min_l by lia.
  - rewrite Heq. by rewrite Heq.
Qed.

Lemma manager_filter_idem (history out : list Dict) (context : Dict) :
  manager_filter history context = Some out -> manager_filter out context = Some out.
Proof.
  unfold manager_filter.
  destruct (get context "previous_phase_id") eqn:Hprev;
    try (intros [= <-]; by rewrite filter_filter_same).
  destruct (get context "phase_id") eqn:Hphase;
    try (intros [= <-]; done);
    simpl;
    try (destruct (0 <? _)); intros [= <-]; try done; by rewrite filter_filter_same.
Qed.

Lemma orchestrator_filter_idem (n : Z) (history out : list Dict) (context : Dict) (m : Z) :
  effective_max_turns n context = Some m -> 0 <= m ->
  orchestrator_filter n history context = Some out ->
  orchestrator_filter n out context = Some out.
Proof.
  unfold effective_max_turns, orchestrator_filter. intros Hm Hnn. rewrite Hm.
  intros [= <-]. f_equal.
  rewrite filter_all_true.
  - by apply py_slice_from_neg_idem.
  - apply py_slice_from_sublist, Forall_filter_true.
Qed.

End HistoryFiltersFacts.

(** C6 (counterexample).  Re-filtering is not a no-op for every filter:
    the worker filter drops the turn's [task] marker, so its output has no
    marker and filtering it again gives []; the orchestrator filter with a
    negative [max_conversation_turns = -1] drops one more entry on each
    pass. *)
Lemma C6_filter_not_idempotent_counterexample :
  let h := [[("type", VStr "task")]; [("type", VStr "action")]] in
  HistoryFilters.filter_for_prompt HistoryFilters.Worker h [] = Some [[("type", VStr "action")]]
  /\ HistoryFilters.filter_for_prompt HistoryFilters.Worker [[("type", VStr "action")]] [] = Some []
  /\ let c := [("max_conversation_turns", VInt (-1))] in
     let u := [[("type", VStr "user_message")]; [("type", VStr "assistant_message")]] in
     HistoryFilters.filter_for_prompt (HistoryFilters.Orchestrator 8) u c
       = Some [[("type", VStr "assistant_message")]]
     /\ HistoryFilters.filter_for_prompt (HistoryFilters.Orchestrator 8)
          [[("type", VStr "assistant_message")]] c = Some [].
Proof. vm_compute. repeat split. Qed.

(** C6 (amended).  filter_for_prompt is idempotent for the default and the
    manager filters on every history and context, and for the orchestrator
    filter whenever the turn limit it uses (the context's
    [max_conversation_turns], else the configured one) is a non-negative
    integer. *)
Theorem C6_filter_for_prompt_idempotent (f : HistoryFilters.HistoryFilter)
    (history out : list Dict) (context : Dict) :
  HistoryFilters.idempotence_domain f context ->
  HistoryFilters.filter_for_prompt f history context = Some out ->
  HistoryFilters.filter_for_prompt f out context = Some out.
Proof.
  destruct f as [n| | |]; simpl.
  - intros [m [Hm Hnn]]. by apply HistoryFiltersFacts.orchestrator_filter_idem with m.
  - intros _. apply HistoryFiltersFacts.manager_filter_idem.
  - done.
  - by intros _ [= <-].
Qed.

(** Witness for C6: the orchestrator filter with its default of 8 turns. *)
Lemma C6_filter_for_prompt_idempotent_witness :
  let u := [[("type", VStr "user_message")]; [("type", VStr "task")]] in
  HistoryFilters.idempotence_domain (HistoryFilters.Orchestrator 8) []
  /\ HistoryFilters.filter_for_prompt (HistoryFilters.Orchestrator 8) u []
       = Some [[("type", VStr "user_message")]]
  /\ HistoryFilters.filter_for_prompt (HistoryFilters.Orchestrator 8)
       [[("type", VStr "user_message")]] [] = Some [[("type", VStr "user_message")]].
Proof.
  simpl. refine (conj (ex_intro _ 8 (conj eq_refl _)) (conj eq_refl _)); [lia|].
  apply (C6_filter_for_prompt_idempotent (HistoryFilters.Orchestrator 8)
           [[("type", VStr "user_message")]; [("type", VStr "task")]]).
  - simpl. exists 8. split; [reflexivity|lia].
  - vm_compute. reflexivity.
Defined.

(** C7 (counterexample).  With [max_iterations = 0] (and the other
    constructor defaults), [should_terminate] on iteration 1 for a planned
    [Action] returns false: the cap test [self.max_iterations and ...] is
    skipped because 0 is falsy. *)
Lemma C7_cap_zero_counterexample :
  Termination.should_terminate
    (Termination.with_cap (Some 0) false [] true (fun _ _ _ => true))
    1 (Base.OAction (Base.mkAction "search" [])) [] [] = false.
Proof. reflexivity. Qed.

(** C7 (amended).  [max_iterations = 0] disables the iteration cap:
    [should_terminate] then answers exactly as a policy with no cap
    ([max_iterations = None]) for every iteration, plan outcome, history
    and context; it terminates only on a [FinalResponse], on a configured
    terminal tool when [require_terminal_tool] is set, or on completion
    detected after a non-action outcome. *)
Theorem C7_cap_zero_is_no_cap (rt : bool) (tt : list string) (cc : bool)
    (ic : Value -> list Dict -> Dict -> bool) (iteration : Z)
    (plan_outcome : Base.PlanOutcome) (history : list Dict) (context : Dict) :
  Termination.should_terminate (Termination.with_cap (Some 0) rt tt cc ic)
    iteration plan_outcome history context
  = Termination.should_terminate (Termination.with_cap None rt tt cc ic)
    iteration plan_outcome history context.
Proof. reflexivity. Qed.

Module HITLFacts.
Import HITL.

(** The job store is never consulted: the relative import of
    [get_job_store] always fails and the failure is swallowed. *)
Lemma requires_approval_store_irrelevant isalnum_nonascii py_str json_dumps_sorted
    (p : DefaultHITLPolicy) (store1 store2 : JobStore)
    (tool_name : string) (tool_args : Dict) (context : Dict) :
  requires_approval isalnum_nonascii py_str json_dumps_sorted p store1 tool_name tool_args context
  = requires_approval isalnum_nonascii py_str json_dumps_sorted p store2 tool_name tool_args context.
Proof. reflexivity. Qed.

End HITLFacts.

(** C1 (code_bug).  At the failing input: HITL enabled with scope
    "writes", tool [add_column], context [{"job_id": "job1", "approvals":
    {}}], and a job store whose job [job1] lists the action's signature in
    its executed actions.  [has_executed_action] answers true, yet
    [requires_approval] answers true, because [from ...state.job_store]
    resolves beyond the top-level package [agent_framework] (an
    ImportError caught by [except Exception: pass]); the same import
    written [..state.job_store] in [core/agent.py] resolves. *)
Theorem C1_requires_approval_ignores_executed_actions isalnum_nonascii py_str json_dumps_sorted :
  let p := {| HITL.enabled := true; HITL.scope := "writes";
              HITL.write_tools := HITL.default_write_tools |} in
  let args := [("table", VStr "Sales"); ("column", VStr "Total")] in
  let sig := HITL.signature json_dumps_sorted "add_column" args in
  let store : HITL.JobStore := <["job1" := HITL.mkJob "job1" "running" [sig]]> ∅ in
  let ctx := [("job_id", VStr "job1"); ("approvals", VDict [])] in
  HITL.has_executed_action isalnum_nonascii store "job1" sig = true
  /\ HITL.requires_approval isalnum_nonascii py_str json_dumps_sorted p store "add_column" args ctx
     = Some true
  /\ HITL.resolve_relative_import HITL.policies_package 3 ["state"; "job_store"] = None
  /\ HITL.resolve_relative_import HITL.core_package 2 ["state"; "job_store"]
     = Some HITL.job_store_module.
Proof.
  simpl. split; [| split; [reflexivity | split; reflexivity]].
  unfold HITL.has_executed_action. simpl. apply bool_decide_eq_true. set_solver.
Qed.

Module MemoryFacts.
Import Memory.

Lemma list_team_msgs_concat (st : SharedStateStore) (ns : string) (keys : list string) :
  list_team_msgs st ns keys = List.concat (List.map (list_agent_msgs st ns) keys).
Proof. induction keys as [|k keys IH]; simpl; [done|]. by rewrite IH. Qed.

Lemma list_agent_msgs_conversation (st : SharedStateStore) ns ns' key r c ts :
  list_agent_msgs (append_conversation_turn st ns' r c ts) ns key = list_agent_msgs st ns key.
Proof. reflexivity. Qed.

Lemma list_team_msgs_conversation (st : SharedStateStore) ns ns' keys r c ts :
  list_team_msgs (append_conversation_turn st ns' r c ts) ns keys = list_team_msgs st ns keys.
Proof. induction keys as [|k keys IH]; simpl; [done|]. by rewrite IH. Qed.

End MemoryFacts.

(** C5 (code_bug, failing input).  A namespace whose only content is one
    user turn: the hierarchical view returns [] although the claimed
    concatenation, which [SharedInMemoryMemory.get_history] and
    [HierarchicalMessageStoreMemory.get_history] follow, starts with the
    translated [user_message] row. *)
Lemma C5_hierarchical_history_counterexample :
  let st := Memory.append_conversation_turn Memory.empty_store "job1" "user" "hi" 0 in
  let m := {| Memory.h_namespace := "job1"; Memory.h_agent_key := "manager";
              Memory.subordinates := ["worker1"] |} in
  Memory.hierarchical_get_history m st = []
  /\ Memory.conversation_msgs (Memory.list_conversation st "job1")
     ++ Memory.list_agent_msgs st "job1" "manager"
     ++ Memory.list_team_msgs st "job1" ["worker1"]
     ++ Memory.list_global_updates st "job1"
     = [[("type", VStr "user_message"); ("content", VStr "hi")]].
Proof. vm_compute. split; reflexivity. Qed.

(** C5 (code_bug).  What the code does: the hierarchical-manager view
    returns the manager's own feed, then the subordinate feeds concatenated
    in the order of [subordinates], then the namespace's global feed; the
    conversation feed is left out (appending a conversation turn leaves the
    view unchanged), unlike the parent class's view and the message-store
    hierarchical view, which put it first. *)
Theorem C5_hierarchical_get_history (m : Memory.HierarchicalSharedMemory)
    (st : Memory.SharedStateStore) :
  Memory.hierarchical_get_history m st
  = Memory.list_agent_msgs st (Memory.h_namespace m) (Memory.h_agent_key m)
    ++ List.concat (List.map (Memory.list_agent_msgs st (Memory.h_namespace m))
                             (Memory.subordinates m))
    ++ Memory.list_global_updates st (Memory.h_namespace m)
  /\ (forall ns r c ts,
        Memory.hierarchical_get_history m (Memory.append_conversation_turn st ns r c ts)
        = Memory.hierarchical_get_history m st).
Proof.
  split.
  - unfold Memory.hierarchical_get_history. by rewrite MemoryFacts.list_team_msgs_concat.
  - intros ns r c ts. unfold Memory.hierarchical_get_history.
    by rewrite MemoryFacts.list_team_msgs_conversation.
Qed.

(** C10.  [MessageStoreMemory.add] changes nothing: the memory object and
    the backing store are unchanged, hence so is [get_history]. *)
Theorem C10_message_store_add_noop (S : Type) gc ga gg
    (m : MessageStoreMemory.MessageStoreMemory) (store : S) (message : Dict) :
  MessageStoreMemory.add S m store message = (m, store)
  /\ let '(m', store') := MessageStoreMemory.add S m store message in
     MessageStoreMemory.get_history S gc ga gg m' store'
     = MessageStoreMemory.get_history S gc ga gg m store.
Proof. split; reflexivity. Qed.

Module PhasesFacts.
Import Phases.

Lemma get_stripped_two (k1 k2 : string) (v1 v2 : string) :
  k1 ≠ k2 -> PyStr.strip v1 = v1 -> PyStr.strip v2 = v2 ->
  get_stripped [(k1, VStr v1); (k2, VStr v2)] k1 = Some v1
  /\ get_stripped [(k1, VStr v1); (k2, VStr v2)] k2 = Some v2.
Proof.
  intros Hne H1 H2. unfold get_stripped, get_or. simpl.
  rewrite String.eqb_refl. split; [by rewrite H1|].
  destruct (String.eqb_spec k2 k1) as [->|_]; [done|]. simpl.
  by rewrite String.eqb_refl, H2.
Qed.

Lemma eqb_nonempty (s : string) : s ≠ ""%string -> String.eqb s "" = false.
Proof. intros H. by apply String.eqb_neq. Qed.

(** The delegation runs the worker unless it is a nested manager given
    script steps or a suggested plan. *)
Lemma delegate_runs wr py_str (m : ManagerAgent) (w t : string) (a : Dict) (p : Value) :
  w ∉ manager_workers m \/ (list_arg a "script" = [] /\ list_arg a "suggested_plan" = []) ->
  delegate wr py_str m w t a p
  = ([Publish "delegation_planned" None; Publish "delegation_chosen" None;
      WorkerRun w t p; Publish "delegation_executed" None],
     normalize_result py_str (wr w t p a)).
Proof.
  intros [H|[H1 H2]]; unfold delegate.
  - assert (Hn : existsb (String.eqb w) (manager_workers m) = false).
    { apply not_true_iff_false. intros (w' & Hw' & E)%existsb_exists.
      apply String.eqb_eq in E as <-. apply H. by apply list_elem_of_In. }
    rewrite Hn. by destruct (truthy (VList (list_arg a "script"))), (truthy (VList (list_arg a "suggested_plan"))).
  - by rewrite H1, H2.
Qed.

End PhasesFacts.

(** C4 (counterexample).  The orchestrator with workers W1, W2 and the
    plan [{worker: W1, goals: G1}, {worker: W2, goals: G2}]: W2 is called
    with [G2 + "\n\n---\n\nPrevious Phase Output:\n" + format(r1)], not
    with the claimed [G2 + "\n\n--- Previous Phase Output ---\n" +
    format(r1)], and for orchestrator phases the request context holds no
    plan ([None]) during each call, not a single-step plan. *)
Lemma C4_phase_sequencing_counterexample :
  let m := {| Phases.name := "orchestrator"; Phases.workers := ["W1"; "W2"];
                Phases.manager_workers := [] |} in
  let phases := [[("worker", VStr "W1"); ("goals", VStr "G1")];
                 [("worker", VStr "W2"); ("goals", VStr "G2")]] in
  let wr := fun (_ _ : string) (_ : Value) (_ : Dict) =>
              VDict [("human_readable_summary", VStr "done")] in
  let fmt := fun (_ : Dict) => "done"%string in
  exists evs out,
    Phases.execute_phases_sequentially wr (fun _ => ""%string) fmt m phases "T" [] VNone
      = Some (evs, out)
    /\ Phases.worker_calls evs
       = [Phases.WorkerRun "W1" "G1" VNone;
          Phases.WorkerRun "W2" ("G2" +:+ PyStr.nl +:+ PyStr.nl +:+ "---" +:+ PyStr.nl
                                 +:+ PyStr.nl +:+ "Previous Phase Output:" +:+ PyStr.nl
                                 +:+ "done") VNone]
    /\ ("G2" +:+ PyStr.nl +:+ PyStr.nl +:+ "---" +:+ PyStr.nl +:+ PyStr.nl
        +:+ "Previous Phase Output:" +:+ PyStr.nl +:+ "done")%string
       ≠ Phases.spec_phase_task "G2" "done".
Proof.
  simpl. eexists _, _. split; [vm_compute; reflexivity|]. split.
  - vm_compute. reflexivity.
  - vm_compute. discriminate.
Qed.


(** C4 (amended).  For every manager whose workers include W1 and W2
    and the plan [{worker: W1, goals: G1}, {worker: W2, goals: G2}]
    (non-empty names and goals without surrounding blanks), when W1's
    normalised result r1 is non-empty and not an approval request: W1 is
    called with task G1, then W2 with
    [G2 + "\n\n---\n\nPrevious <Term> Output:\n" + format(r1)] ([Term] is
    [Step] for a manager, [Phase] for an orchestrator); during each call
    the request context holds the single-step plan of that segment for a
    manager and no plan for an orchestrator; and the segment events are
    start(0), end(0), start(1), end(1) in that order
    ([manager_step_*] or [orchestrator_phase_*]). *)
Theorem C4_phase_sequencing (wr : string -> string -> Value -> Dict -> Value)
    (py_str : Value -> string) (fmt : Dict -> string) (m : Phases.ManagerAgent)
    (W1 W2 G1 G2 task : string) (tool_args : Dict) (strategic_plan : Value) :
  W1 ∈ Phases.workers m -> W2 ∈ Phases.workers m ->
  W1 ∉ Phases.manager_workers m
  \/ (Phases.list_arg tool_args "script" = [] /\ Phases.list_arg tool_args "suggested_plan" = []) ->
  W1 ≠ ""%string -> W2 ≠ ""%string -> G1 ≠ ""%string -> G2 ≠ ""%string ->
  PyStr.strip W1 = W1 -> PyStr.strip W2 = W2 ->
  PyStr.strip G1 = G1 -> PyStr.strip G2 = G2 ->
  let p1 := [("worker", VStr W1); ("goals", VStr G1)] in
  let p2 := [("worker", VStr W2); ("goals", VStr G2)] in
  let steps := Phases.is_manager_steps m in
  let plan0 := if steps then Phases.step_plan py_str p1 0 2 W1 G1 else VNone in
  let r1 := Phases.normalize_result py_str (wr W1 G1 plan0 tool_args) in
  r1 ≠ [] ->
  py_eq (get r1 "operation") (VStr "await_approval") = false ->
  let t2 := Phases.code_phase_task (if steps then "Step" else "Phase") G2 (fmt r1) in
  let plan1 := if steps then Phases.step_plan py_str p2 1 2 W2 t2 else VNone in
  let start_ev := if steps then "manager_step_start" else "orchestrator_phase_start" in
  let end_ev := if steps then "manager_step_end" else "orchestrator_phase_end" in
  exists evs out,
    Phases.execute_phases_sequentially wr py_str fmt m [p1; p2] task tool_args strategic_plan
      = Some (evs, out)
    /\ Phases.worker_calls evs = [Phases.WorkerRun W1 G1 plan0; Phases.WorkerRun W2 t2 plan1]
    /\ Phases.segment_events evs
       = [Phases.Publish start_ev (Some 0%nat); Phases.Publish end_ev (Some 0%nat);
          Phases.Publish start_ev (Some 1%nat); Phases.Publish end_ev (Some 1%nat)].
Proof.
  intros HW1 HW2 Hd1 HW1e HW2e HG1e HG2e Hs1 Hs2 Hs3 Hs4 p1 p2 steps plan0 r1 Hr1 Hop
         t2 plan1 start_ev end_ev.
  assert (Hne : "worker"%string ≠ "goals"%string) by discriminate.
  destruct (PhasesFacts.get_stripped_two _ _ _ _ Hne Hs1 Hs3) as [Hp1w Hp1g].
  destruct (PhasesFacts.get_stripped_two _ _ _ _ Hne Hs2 Hs4) as [Hp2w Hp2g].
  assert (Hk1 : existsb (String.eqb W1) (Phases.workers m) = true).
  { apply existsb_exists. exists W1. split; [by apply list_elem_of_In|]. apply String.eqb_refl. }
  assert (Hk2 : existsb (String.eqb W2) (Phases.workers m) = true).
  { apply existsb_exists. exists W2. split; [by apply list_elem_of_In|]. apply String.eqb_refl. }
  subst p1 p2 plan1 t2 start_ev end_ev.
  unfold Phases.execute_phases_sequentially. cbn [List.length].
  cbn [Phases.phase_loop].
  rewrite Hp1w, (PhasesFacts.eqb_nonempty _ HW1e), Hk1, Hp1g, (PhasesFacts.eqb_nonempty _ HG1e).
  rewrite Hp2w, (PhasesFacts.eqb_nonempty _ HW2e), Hk2, Hp2g, (PhasesFacts.eqb_nonempty _ HG2e).
  cbn [Nat.eqb Nat.ltb Nat.leb andb orb negb].
  rewrite (PhasesFacts.delegate_runs wr py_str m W1 _ tool_args _ Hd1).
  rewrite (PhasesFacts.delegate_runs wr py_str m W2 _ [] _ (or_intror (conj eq_refl eq_refl))).
  fold steps. fold plan0.
  change (Phases.normalize_result py_str (wr W1 G1 plan0 tool_args)) with r1.
  clearbody r1. rewrite Hop.
  destruct r1 as [|x r1']; [done|]. cbn [truthy andb].
  destruct (py_eq (get (Phases.normalize_result py_str (wr W2 _ _ _)) "operation") (VStr "await_approval")); eexists _, _; (split; [reflexivity|]);
    unfold Phases.code_phase_task; split; reflexivity.
Qed.

Lemma C4_phase_sequencing_witness :
  let wr := fun (_ _ : string) (_ : Value) (_ : Dict) =>
              VDict [("human_readable_summary", VStr "done")] in
  let py_str := fun (_ : Value) => "done"%string in
  let fmt := fun (_ : Dict) => "done"%string in
  let m := {| Phases.name := "analysis_manager"; Phases.workers := ["W1"; "W2"];
                Phases.manager_workers := [] |} in
  let p1 := [("worker", VStr "W1"); ("goals", VStr "G1")] in
  let p2 := [("worker", VStr "W2"); ("goals", VStr "G2")] in
  let t2 := Phases.code_phase_task "Step" "G2" "done" in
  exists evs out,
    Phases.execute_phases_sequentially wr py_str fmt m [p1; p2] "T" [] VNone = Some (evs, out)
    /\ Phases.worker_calls evs
       = [Phases.WorkerRun "W1" "G1" (Phases.step_plan py_str p1 0 2 "W1" "G1");
          Phases.WorkerRun "W2" t2 (Phases.step_plan py_str p2 1 2 "W2" t2)]
    /\ Phases.segment_events evs
       = [Phases.Publish "manager_step_start" (Some 0%nat);
          Phases.Publish "manager_step_end" (Some 0%nat);
          Phases.Publish "manager_step_start" (Some 1%nat);
          Phases.Publish "manager_step_end" (Some 1%nat)].
Proof.
  intros wr py_str fmt m p1 p2 t2.
  refine (C4_phase_sequencing wr py_str fmt m "W1" "W2" "G1" "G2" "T" [] VNone
            _ _ _ _ _ _ _ _ _ _ _ _ _).
  all: try (right; split; reflexivity).
  all: try (apply list_elem_of_In; simpl; tauto).
  all: try discriminate.
  all: vm_compute; reflexivity.
Defined.

Module AgentRunFacts.
Import AgentRun Base.

Lemma tool_runs_app (l1 l2 : list AEvent) : tool_runs (l1 ++ l2) = tool_runs l1 ++ tool_runs l2.
Proof. unfold tool_runs. apply List.filter_app. Qed.

Lemma tool_runs_publishes {A} (f : A -> string) (g : A -> option string) (l : list A) :
  tool_runs (map (fun x => Publish (f x) (g x)) l) = [].
Proof. induction l as [|x l IH]; [reflexivity|]. exact IH. Qed.

Lemma values_of_exc (results : list ExecResult) (e : Failure) :
  In (RExc e) results -> values_of results = None.
Proof.
  induction results as [|[e'|v] l IH]; cbn; intros H; [done|done|].
  destruct H as [H|H]; [discriminate|]. by rewrite IH.
Qed.

Lemma create_completion_response_dict (msg o h : string) (p : Dict) (s : AgentState) :
  create_completion_response msg
    (VDict [("operation", VStr o); ("payload", VDict p); ("human_readable_summary", VStr h)]) s
  = Some (handle_final_response (mkFinalResponse o p h) s).
Proof. reflexivity. Qed.

Lemma policy_allowed_not_denied (r : option bool) : r <> Some false -> policy_allowed r = true.
Proof. destruct r as [[|]|]; cbn; congruence. Qed.

End AgentRunFacts.

Import AgentRun Base AgentRunFacts.

(** C2 (counterexample).  A planner that keeps proposing an action for an
    unknown tool: the run does not record an observation and go on, it ends
    after the first iteration with an error response, its memory holding the
    task entry and two error entries. *)
Lemma C2_failed_action_ends_run_counterexample :
  let tools := fun (_ : string) => @None Tool in
  let noresp := mkFinalResponse "" [] "" in
  exists s' r,
    run_planner tools (fun _ _ => Some true) (fun _ => "Tool not found: lookup"%string)
      (fun _ => ""%string) (fun _ _ => OAction (mkAction "lookup" []))
      (fun _ _ _ => false) (fun _ _ => None) (fun _ _ => false) (fun _ _ => [])
      (fun _ _ => false) (fun _ _ _ => false) (fun _ => noresp) (fun _ _ _ => noresp)
      (fun _ _ => None) 10 "T" (mkState [] []) = Some (s', r)
    /\ map (fun e => get e "type") (mem s') = [VStr TASK; VStr ERROR; VStr ERROR]
    /\ last (trace s') = Some (Publish "agent_end" (Some "error")).
Proof.
  intros. eexists _, _. split; [vm_compute; reflexivity|]. split; vm_compute; reflexivity.
Qed.

(** C3 (counterexample).  A batch [complete_task; search] where
    [complete_task] returns [{"completed": False}]: the iteration records
    an action entry for [search] after the one for [complete_task] and goes
    on to the next iteration. *)
Lemma C3_actions_after_complete_task_counterexample :
  let mk := fun (n : string) (v : Value) =>
              mkTool n (fun k => Some k) (fun _ => Returns v) in
  let tools := fun (n : string) =>
                 if String.eqb n "complete_task" then Some (mk n (VDict [("completed", VBool false)]))
                 else if String.eqb n "search" then Some (mk n (VDict [("rows", VInt 1)]))
                 else None in
  let noresp := mkFinalResponse "" [] "" in
  exists s' ah oh,
    iteration tools (fun _ _ => Some true) (fun _ => ""%string) (fun _ => ""%string)
      (fun _ _ => OActions [mkAction "complete_task" []; mkAction "search" []])
      (fun _ _ _ => false) (fun _ _ => None) (fun _ _ => false) (fun _ _ => [])
      (fun _ _ => false) (fun _ _ _ => false) (fun _ => noresp) (fun _ _ _ => noresp)
      (fun _ _ => None) 1 (mkState [[("type", VStr TASK); ("content", VStr "T")]] []) [] []
      = Continue s' ah oh
    /\ map (fun e => get e "tool") (action_entries (mem s'))
       = [VStr "complete_task"; VStr "search"].
Proof.
  intros. eexists _, _, _. split; [vm_compute; reflexivity|]. vm_compute; reflexivity.
Qed.

Section AgentFacts.
Variable tools : string -> option Tool.
Variable policy_evaluate : string -> Dict -> option bool.
Variable failure_str : Failure -> string.
Variable py_str : Value -> string.
Variable plan : nat -> list Dict -> PlanOutcome.
Variable should_terminate : nat -> PlanOutcome -> list Dict -> bool.
Variable detect_stagnation : list (list (string * Dict)) -> list string -> option string.
Variable requires_approval : string -> Dict -> bool.
Variable create_approval_request : string -> Dict -> Dict.
Variable is_complete : Value -> list Dict -> bool.
Variable should_checkpoint : Value -> nat -> Value -> bool.
Variable create_checkpoint_response : Value -> FinalResponse.
Variable convert_get_tool_result_to_message : string -> Dict -> Dict -> FinalResponse.
Variable convert_completion : Action -> Value -> option FinalResponse.

Local Abbreviation iteration' :=
  (iteration tools policy_evaluate failure_str py_str plan should_terminate detect_stagnation
     requires_approval create_approval_request is_complete should_checkpoint
     create_checkpoint_response convert_get_tool_result_to_message convert_completion).
Local Abbreviation record_results' :=
  (record_results py_str convert_get_tool_result_to_message).
Local Abbreviation execute_actions' := (execute_actions tools policy_evaluate).
Local Abbreviation execute_tool' := (execute_tool policy_evaluate).
Local Abbreviation prepare' := (prepare tools).

Lemma execute_actions_exc (actions : list Action) (a : Action) (e : Failure) :
  In a actions -> snd (execute_tool' a (prepare' a)) = RExc e ->
  In (RExc e) (snd (execute_actions' actions)).
Proof.
  intros Hin He. unfold execute_actions. cbn [snd]. rewrite map_map.
  apply in_map_iff. exists a. by split.
Qed.

(** C8.  In an iteration of the planner loop that reaches the HITL check
    (no early completion, no termination, a list of actions, no second
    [complete_task], no stagnation), when the HITL policy requires approval
    for an action of the batch, the iteration returns the approval response
    for the first such action: the trace gains only the [action_planned]
    events and an [agent_end] with status [pending], no tool runs and no
    memory entry is appended.  (It raises instead when the request is not a
    valid [FinalResponse].) *)
Theorem C8_hitl_approval_stops_batch (it : nat) (s : AgentState)
    (ah : list (list (string * Dict))) (oh : list string) (actions : list Action) (a : Action) :
  resume_check it s = None ->
  should_terminate it (plan it (mem s)) (mem s) = false ->
  actions_of (plan it (mem s)) = Some actions ->
  replans_completed actions (mem s) = false ->
  detect_stagnation ah oh = None ->
  List.find (fun b => requires_approval (tool_name b) (tool_args b)) actions = Some a ->
  let req := create_approval_request (tool_name a) (tool_args a) in
  let s' := emit (map (fun _ => Publish "action_planned" None) actions
                  ++ [Publish "agent_end" (Some "pending")]) s in
  iteration' it s ah oh
    = match approval_final req with Some f => Return s' (model_dump f) | None => Raise end
  /\ mem s' = mem s
  /\ tool_runs (trace s') = tool_runs (trace s).
Proof.
  intros Hres Hterm Hacts Hrep Hstag Hfind req s'.
  split; [|split].
  - unfold iteration. rewrite Hres, Hterm, Hacts, Hrep, Hstag, Hfind.
    unfold handle_approval_request. fold req.
    destruct (approval_final req); [|reflexivity]. simpl.
    unfold s', publish, emit. simpl. by rewrite <- app_assoc.
  - reflexivity.
  - unfold s', emit. cbn [trace].
    rewrite !tool_runs_app, (tool_runs_publishes (fun _ => "action_planned"%string) (fun _ => None)).
    cbn. by rewrite !app_nil_r.
Qed.

(** C3 (amended).  In the recording loop of an iteration, once a
    [complete_task] result that is a dict with [completed] set to [True] is
    recorded, the loop returns (or raises) at once: what follows it in the
    batch is never recorded, and the loop does not fall through to the next
    checks, so the iteration, and with it the run, ends there. *)
Theorem C3_complete_task_ends_recording (pre rest : list (Action * Value)) (a : Action)
    (d : Dict) (s : AgentState) (oh : list string) :
  tool_name a = "complete_task"%string ->
  is_true_value (get d "completed") = true ->
  record_results' (pre ++ (a, VDict d) :: rest) s oh
    = record_results' (pre ++ [(a, VDict d)]) s oh
  /\ forall s' oh', record_results' (pre ++ [(a, VDict d)]) s oh <> Some (inr (s', oh')).
Proof.
  intros Ha Hc. revert s oh.
  induction pre as [|[a' r'] pre IH]; intros s oh.
  - cbn [app record_results]. rewrite Ha. cbn [String.eqb Ascii.eqb Bool.eqb andb].
    destruct (record_observation py_str a (VDict d) (add (action_entry a) s) oh) as [s2 oh2].
    rewrite Hc. split; [reflexivity|].
    intros s' oh'. destruct (has_key d "operation" && has_key d "payload"); [|discriminate].
    by destruct (final_response_of _ _ _).
  - cbn [app record_results].
    destruct (record_observation py_str a' r' (add (action_entry a') s) oh) as [s2 oh2].
    destruct (IH s2 oh2) as [IH1 IH2]. rewrite IH1. split; [reflexivity|].
    intros s' oh'.
    destruct (String.eqb (tool_name a') "complete_task"); [|apply IH2].
    destruct r' as [| | | | |d']; try apply IH2.
    destruct (is_true_value (get d' "completed")); [|apply IH2].
    destruct (has_key d' "operation" && has_key d' "payload"); [|discriminate].
    by destruct (final_response_of _ _ _).
Qed.

(** C2 (amended).  When an action of the batch names an unknown tool,
    fails validation or is denied by the policy engine, the iteration ends
    the run with an error response: two [error] memory entries are
    appended (no action or observation entry for the batch), and after the
    [action_planned] events and the events of the tool executions the
    trace gains an [error] event and then [agent_end] with status [error].
    Only an exception raised by a tool itself (whose policy evaluation did
    not deny it) becomes a structured error result, recorded as an action
    entry and an error observation, after which the recording goes on. *)
Theorem C2_transient_failure_ends_run :
  (forall (it : nat) (s : AgentState) (ah : list (list (string * Dict))) (oh : list string)
          (actions : list Action) (a : Action),
   resume_check it s = None ->
   should_terminate it (plan it (mem s)) (mem s) = false ->
   actions_of (plan it (mem s)) = Some actions ->
   replans_completed actions (mem s) = false ->
   detect_stagnation ah oh = None ->
   List.find (fun b => requires_approval (tool_name b) (tool_args b)) actions = None ->
   In a actions ->
   tools (tool_name a) = None
   \/ (exists t, tools (tool_name a) = Some t /\ validate t (tool_args a) = None)
   \/ (exists t k, tools (tool_name a) = Some t /\ validate t (tool_args a) = Some k
                   /\ policy_evaluate (tool_name a) k = Some false) ->
   exists s' r msg,
     iteration' it s ah oh = Return s' r
     /\ mem s' = mem s ++ [[("type", VStr ERROR); ("content", VStr msg)];
                           [("type", VStr ERROR); ("content", VStr msg)]]
     /\ trace s' = trace s ++ map (fun _ => Publish "action_planned" None) actions
                   ++ fst (execute_actions' actions)
                   ++ [Publish "error" None; Publish "agent_end" (Some "error")])
  /\
  (forall (a : Action) (t : Tool) (k : Dict) (ty msg : string) (s : AgentState)
          (oh : list string),
   tools (tool_name a) = Some t -> validate t (tool_args a) = Some k ->
   policy_evaluate (tool_name a) k <> Some false -> execute t k = Raises ty msg ->
   let d := error_payload (tname t) ty msg in
   let e := error_observation py_str (tool_name a) d in
   snd (execute_tool' a (prepare' a)) = RVal (VDict d)
   /\ record_results' [(a, VDict d)] s oh
      = Some (inr (add [("type", VStr OBSERVATION); ("content", VStr e)]
                     (add (action_entry a) s), oh ++ [e]))).
Proof.
  split.
  - intros it s ah oh actions a Hres Hterm Hacts Hrep Hstag Hfind Hin Hfail.
    assert (He : exists e, snd (execute_tool' a (prepare' a)) = RExc e).
    { unfold prepare, execute_tool.
      destruct Hfail as [H|[[t [H1 H2]]|[t [k [H1 [H2 H3]]]]]].
      - rewrite H. by eexists.
      - rewrite H1, H2. by eexists.
      - rewrite H1, H2, H3. by eexists. }
    destruct He as [e He].
    pose proof (values_of_exc _ _ (execute_actions_exc actions a e Hin He)) as Hv.
    unfold iteration. rewrite Hres, Hterm, Hacts, Hrep, Hstag, Hfind.
    destruct (execute_actions' actions) as [evs results]. cbn [snd] in Hv. rewrite Hv.
    unfold handle_execution_errors, create_error_response.
    eexists _, _, _. split; [reflexivity|]. split.
    + cbn. by rewrite <- app_assoc.
    + cbn [trace publish emit add fst]. by rewrite <- !app_assoc.
  - intros a t k ty msg s oh H1 H2 H3 H4 d e.
    assert (Hx : snd (execute_tool' a (prepare' a)) = RVal (VDict d)).
    { unfold prepare, execute_tool. by rewrite H1, H2, (policy_allowed_not_denied _ H3), H4. }
    split; [exact Hx|].
    cbn [record_results]. unfold record_observation.
    replace (truthy (get d "error")) with true by reflexivity.
    by destruct (String.eqb (tool_name a) "complete_task").
Qed.

Local Abbreviation run_script_mode' := (run_script_mode tools policy_evaluate failure_str).


End AgentFacts.

Lemma C8_hitl_approval_stops_batch_witness :
  let tools := fun (_ : string) => @None Tool in
  let noresp := mkFinalResponse "" [] "" in
  let act := mkAction "add_column" [("table", VStr "Sales")] in
  let req := fun (n : string) (args : Dict) =>
               [("operation", VStr "await_approval");
                ("payload", VDict [("await_approval", VBool true); ("tool", VStr n);
                                   ("args", VDict args)]);
                ("human_readable_summary", VStr ("Approval required: " +:+ n))] in
  let s0 := mkState [[("type", VStr TASK); ("content", VStr "T")]] [] in
  let s' := emit [Publish "action_planned" None; Publish "agent_end" (Some "pending")] s0 in
  iteration tools (fun _ _ => Some true) (fun _ => ""%string) (fun _ => ""%string)
      (fun _ _ => OAction act) (fun _ _ _ => false) (fun _ _ => None)
      (fun n _ => String.eqb n "add_column") req
      (fun _ _ => false) (fun _ _ _ => false) (fun _ => noresp) (fun _ _ _ => noresp)
      (fun _ _ => None) 1 s0 [] []
    = match approval_final (req "add_column" [("table", VStr "Sales")]) with
      | Some f => Return s' (model_dump f)
      | None => Raise
      end
  /\ mem s' = mem s0
  /\ tool_runs (trace s') = tool_runs (trace s0).
Proof.
  intros.
  refine (C8_hitl_approval_stops_batch tools (fun _ _ => Some true) (fun _ => ""%string)
            (fun _ => ""%string) (fun _ _ => OAction act) (fun _ _ _ => false) (fun _ _ => None)
            (fun n _ => String.eqb n "add_column") req (fun _ _ => false) (fun _ _ _ => false)
            (fun _ => noresp) (fun _ _ _ => noresp) (fun _ _ => None)
            1 s0 [] [] [act] act _ _ _ _ _ _); reflexivity.
Defined.

Lemma C3_complete_task_ends_recording_witness :
  let noresp := mkFinalResponse "" [] "" in
  let ct := mkAction "complete_task" [] in
  let d := [("completed", VBool true); ("operation", VStr "display_message");
            ("payload", VDict []); ("human_readable_summary", VStr "done")] in
  let s0 := mkState [] [] in
  record_results (fun _ => ""%string) (fun _ _ _ => noresp)
    ([] ++ (ct, VDict d) :: [(mkAction "search" [], VNone)]) s0 []
  = record_results (fun _ => ""%string) (fun _ _ _ => noresp) ([] ++ [(ct, VDict d)]) s0 []
  /\ forall s' oh',
       record_results (fun _ => ""%string) (fun _ _ _ => noresp) ([] ++ [(ct, VDict d)]) s0 []
       <> Some (inr (s', oh')).
Proof.
  intros.
  exact (C3_complete_task_ends_recording (fun _ => ""%string) (fun _ _ _ => noresp)
           [] [(mkAction "search" [], VNone)] ct d s0 [] eq_refl eq_refl).
Defined.


Lemma C2_transient_failure_ends_run_witness :
  let noresp := mkFinalResponse "" [] "" in
  let wt := mkTool "write" (fun k => Some k) (fun _ => Raises "ValueError" "disk full") in
  let ct := mkTool "complete_task" (fun k => Some k) (fun _ => Raises "KeyError" "payload") in
  let tools := fun (n : string) =>
    if String.eqb n "write" then Some wt
    else if String.eqb n "complete_task" then Some ct else None in
  let deny := fun (n : string) (_ : Dict) =>
    if String.eqb n "write" then Some false else Some true in
  let act := mkAction "write" [] in
  let cact := mkAction "complete_task" [] in
  let s0 := mkState [[("type", VStr TASK); ("content", VStr "T")]] [] in
  let d := error_payload "complete_task" "KeyError" "payload" in
  let e := error_observation (fun _ => ""%string) "complete_task" d in
  (exists s' r msg,
     iteration tools deny (fun _ => "Action denied by policy"%string)
       (fun _ => ""%string) (fun _ _ => OAction act) (fun _ _ _ => false) (fun _ _ => None)
       (fun _ _ => false) (fun _ _ => []) (fun _ _ => false) (fun _ _ _ => false)
       (fun _ => noresp) (fun _ _ _ => noresp) (fun _ _ => None) 1 s0 [] []
     = Return s' r
     /\ mem s' = mem s0 ++ [[("type", VStr ERROR); ("content", VStr msg)];
                            [("type", VStr ERROR); ("content", VStr msg)]]
     /\ trace s' = trace s0 ++ [Publish "action_planned" None]
                   ++ fst (execute_actions tools deny [act])
                   ++ [Publish "error" None; Publish "agent_end" (Some "error")])
  /\ snd (execute_tool (fun _ _ => None) cact (prepare tools cact)) = RVal (VDict d)
  /\ record_results (fun _ => ""%string) (fun _ _ _ => noresp) [(cact, VDict d)] s0 []
     = Some (inr (add [("type", VStr OBSERVATION); ("content", VStr e)]
                    (add (action_entry cact) s0), [e])).
Proof.
  intros. split.
  - exact (proj1 (C2_transient_failure_ends_run tools deny
                    (fun _ => "Action denied by policy"%string) (fun _ => ""%string)
                    (fun _ _ => OAction act) (fun _ _ _ => false) (fun _ _ => None)
                    (fun _ _ => false) (fun _ _ => []) (fun _ _ => false) (fun _ _ _ => false)
                    (fun _ => noresp) (fun _ _ _ => noresp) (fun _ _ => None))
             1%nat s0 [] [] [act] act eq_refl eq_refl eq_refl eq_refl eq_refl eq_refl
             (or_introl eq_refl)
             (or_intror (or_intror (ex_intro _ wt (ex_intro _ [] (conj eq_refl (conj eq_refl eq_refl))))))).
  - exact (proj2 (C2_transient_failure_ends_run tools (fun _ _ => None)
                    (fun _ => ""%string) (fun _ => ""%string)
                    (fun _ _ => OAction cact) (fun _ _ _ => false) (fun _ _ => None)
                    (fun _ _ => false) (fun _ _ => []) (fun _ _ => false) (fun _ _ _ => false)
                    (fun _ => noresp) (fun _ _ _ => noresp) (fun _ _ => None))
             cact ct [] "KeyError" "payload" s0 [] eq_refl eq_refl ltac:(discriminate)
             eq_refl).
Defined.


(* ================================================================== *)
(** * Further properties of the code *)

(* ------------------------------------------------------------------ *)
(** ** state/job_store.py *)

Module JobStoreFacts.
Import HITL.

Section Store.
Variable isalnum_nonascii : string -> bool.
Local Abbreviation safe_name := (safe_name isalnum_nonascii).
Local Abbreviation has_executed_action := (has_executed_action isalnum_nonascii).
Local Abbreviation add_executed_action := (add_executed_action isalnum_nonascii).
Local Abbreviation store_wf := (store_wf isalnum_nonascii).

(** X1.  In a directory as [save_job] leaves it, [add_executed_action]
    followed by [has_executed_action]: the signature is recorded for every
    job id stored in the same file, and every signature recorded before
    stays recorded; nothing else becomes recorded. *)
Lemma has_executed_action_add (st : JobStore) (j j' sg sg' : string) :
  store_wf st ->
  has_executed_action (add_executed_action st j sg) j' sg'
  = (bool_decide (safe_name j = safe_name j') && String.eqb sg sg') || has_executed_action st j' sg'.
Proof.
  intros _. unfold has_executed_action, add_executed_action.
  destruct (decide (safe_name j = safe_name j')) as [E|E].
  - rewrite E, lookup_insert_eq, (bool_decide_true (safe_name j' = safe_name j')) by done. cbn.
    apply Bool.eq_iff_eq_true. rewrite orb_true_iff, String.eqb_eq.
    destruct (st !! safe_name j') as [jb|]; cbn;
      rewrite ?bool_decide_eq_true; [case_bool_decide|]; set_solver.
  - rewrite lookup_insert_ne by done. rewrite bool_decide_false by done. reflexivity.
Qed.

(** X2.  [add_executed_action] keeps the directory well formed: each file
    still holds a job whose [_path(job.job_id)] is that file. *)
Lemma add_executed_action_wf (st : JobStore) (j sg : string) :
  store_wf st -> store_wf (add_executed_action st j sg).
Proof.
  intros Hwf f jb. unfold add_executed_action. rewrite lookup_insert_Some.
  intros [[<- <-]|[_ Hf]]; [|by apply Hwf].
  cbn. destruct (st !! safe_name j) eqn:E; cbn; [by apply Hwf|done].
Qed.

End Store.

Lemma has_executed_action_add_witness :
  let alnum := fun (_ : string) => true in
  store_wf alnum (∅ : JobStore)
  /\ has_executed_action alnum (add_executed_action alnum ∅ "job-é1" "add_table:{}")
       "job-é1/" "add_table:{}" = true.
Proof.
  intros alnum.
  assert (H0 : store_wf alnum (∅ : JobStore)) by (intros f jb; rewrite lookup_empty; discriminate).
  split; [exact H0|].
  rewrite (has_executed_action_add alnum ∅ "job-é1" "job-é1/" "add_table:{}" "add_table:{}" H0).
  vm_compute. reflexivity.
Defined.

Lemma add_executed_action_wf_witness :
  let alnum := fun (_ : string) => true in
  store_wf alnum (∅ : JobStore) /\ store_wf alnum (add_executed_action alnum ∅ "job-é1" "add_table:{}").
Proof.
  intros alnum.
  assert (H0 : store_wf alnum (∅ : JobStore)) by (intros f jb; rewrite lookup_empty; discriminate).
  split; [exact H0|]. exact (add_executed_action_wf alnum ∅ "job-é1" "add_table:{}" H0).
Defined.

End JobStoreFacts.

(* ------------------------------------------------------------------ *)
(** ** core/agent.py, core/manager_v2.py, core/event_payloads.py : result status *)

Module ResultStatusFacts.

(** X3.  On a value, [Agent._is_success_result] is the negation of
    [_is_script_step_failure], further failed by a truthy [error_message]
    of a dict; on an [Exception] object both hold: it counts as a success
    for the one and as a failure for the other. *)
Lemma is_success_result_script_failure :
  (forall v : Value,
     Results.is_success_result (AgentRun.RVal v)
     = negb (AgentRun.is_script_step_failure (AgentRun.RVal v))
       && negb (match v with VDict d => truthy (get d "error_message") | _ => false end))
  /\ (forall e : AgentRun.Failure,
        Results.is_success_result (AgentRun.RExc e) = true
        /\ AgentRun.is_script_step_failure (AgentRun.RExc e) = true).
Proof.
  split; [|done]. intros v.
  destruct v as [| | | | |d]; try reflexivity. cbn.
  destruct (truthy (get d "error")), (is_false_value (get d "success")),
    (truthy (get d "error_message")); cbn; try reflexivity;
    destruct (get d "payload") as [| | | | |p]; cbn; try reflexivity;
    destruct (truthy (get p "error") || is_false_value (get p "success")); reflexivity.
Qed.

(** X4.  [ManagerAgent._result_status] is [pending] for an approval
    request, and otherwise [success] or [failed] as
    [Agent._is_success_result] decides. *)
Lemma result_status_is_success (d : Dict) :
  Phases.result_status d =
  if py_eq (get d "operation") (VStr "await_approval") then "pending"%string
  else if Results.is_success_result (AgentRun.RVal (VDict d)) then "success"%string else "failed"%string.
Proof.
  unfold Phases.result_status. cbn.
  destruct (py_eq (get d "operation") (VStr "await_approval")); [done|].
  destruct (truthy (get d "error") || is_false_value (get d "success")
            || truthy (get d "error_message")); [done|].
  destruct (get d "payload") as [| | | | |p]; try done.
  by destruct (truthy (get p "error") || is_false_value (get p "success")).
Qed.

(** X5.  [_infer_status(result, "success")] of a dict agrees with
    [_result_status]: [pending] also for a true [pending] flag, [error]
    where [_result_status] says [failed], the same status otherwise. *)
Lemma infer_status_result_status (d : Dict) :
  Results.infer_status (VDict d) "success" =
  if is_true_value (get d "pending") then "pending"%string
  else if String.eqb (Phases.result_status d) "failed" then "error"%string
  else Phases.result_status d.
Proof.
  unfold Results.infer_status, Phases.result_status.
  destruct (py_eq (get d "operation") (VStr "await_approval")); cbn;
    [by destruct (is_true_value (get d "pending"))|].
  destruct (is_true_value (get d "pending")); [done|]. cbn.
  destruct (truthy (get d "error") || is_false_value (get d "success")
            || truthy (get d "error_message")); [done|].
  destruct (get d "payload") as [| | | | |p]; try done.
  by destruct (truthy (get p "error") || is_false_value (get p "success")).
Qed.

End ResultStatusFacts.

(* ------------------------------------------------------------------ *)
(** ** policies/default.py : termination, follow-up and checkpoint decisions *)

Module PolicyFacts.

Lemma over_cap_mono (p : Termination.DefaultTerminationPolicy) (i j : Z) :
  Termination.over_cap p i = true -> i <= j -> Termination.over_cap p j = true.
Proof.
  unfold Termination.over_cap. destruct (Termination.max_iterations p); [|done].
  rewrite !andb_true_iff, !Z.ltb_lt. intros [? ?] ?. split; [done|lia].
Qed.

(** X6.  [DefaultTerminationPolicy.should_terminate] is monotone in the
    iteration: once it says stop, it says stop at every later iteration
    for the same plan outcome, history and context. *)
Lemma should_terminate_monotone (p : Termination.DefaultTerminationPolicy) (i j : Z)
    (po : Base.PlanOutcome) (h : list Dict) (c : Dict) :
  Termination.should_terminate p i po h c = true -> i <= j ->
  Termination.should_terminate p j po h c = true.
Proof.
  unfold Termination.should_terminate. intros H Hij.
  destruct (Termination.over_cap p i) eqn:Ei.
  - by rewrite (over_cap_mono p i j Ei Hij).
  - by destruct (Termination.over_cap p j).
Qed.

Lemma should_terminate_monotone_witness :
  let p := Termination.with_cap (Some 3) false [] false (fun _ _ _ => false) in
  Termination.should_terminate p 4 (Base.OOther VNone) [] [] = true /\ 4 <= 7
  /\ Termination.should_terminate p 7 (Base.OOther VNone) [] [] = true.
Proof.
  intros p. split; [reflexivity|]. split; [lia|].
  apply (should_terminate_monotone p 4 7 (Base.OOther VNone) [] []); [reflexivity|lia].
Defined.

(** X7.  When [DefaultFollowUpPolicy.should_follow_up] says continue, some
    phase is left ([completed_phases < len(phases)]) and the remaining
    phases are within [max_phases] when it is set. *)
Lemma should_follow_up_bounds (p : FollowUp.DefaultFollowUpPolicy) (primary : Dict)
    (phases : list Dict) (completed : Z) :
  FollowUp.should_follow_up p primary phases completed = Some true ->
  completed < Z.of_nat (List.length phases)
  /\ forall m, FollowUp.max_phases p = Some m -> Z.of_nat (List.length phases) - completed <= m.
Proof.
  unfold FollowUp.should_follow_up.
  destruct (FollowUp.enabled p); cbn; [|done].
  assert (Hrest : forall m0, (match m0 with
     | Some m => if m <? Z.of_nat (List.length phases) - completed then Some false
                 else Some (completed <? Z.of_nat (List.length phases))
     | None => Some (completed <? Z.of_nat (List.length phases)) end) = Some true ->
     completed < Z.of_nat (List.length phases)
     /\ forall m, m0 = Some m -> Z.of_nat (List.length phases) - completed <= m).
  { intros [m|] H; [destruct (Z.ltb_spec m (Z.of_nat (List.length phases) - completed))|];
      inversion H as [H1]; rewrite ?Z.ltb_lt in H1; split; try lia; intros ? [= <-]; lia. }
  destruct (FollowUp.stop_on_completion p && FollowUp.check_completion p).
  - destruct (FollowUp.detector_is_complete p _ _) as [[|]|]; [done| |done]. apply Hrest.
  - apply Hrest.
Qed.

Lemma should_follow_up_bounds_witness :
  let p := {| FollowUp.enabled := true; FollowUp.max_phases := Some 2;
              FollowUp.check_completion := true;
              FollowUp.detector_is_complete := fun _ _ => Some false;
              FollowUp.stop_on_completion := true |} in
  FollowUp.should_follow_up p [] [[]; []; []] 1 = Some true
  /\ 1 < 3 /\ forall m, FollowUp.max_phases p = Some m -> 3 - 1 <= m.
Proof.
  intros p. split; [reflexivity|].
  exact (should_follow_up_bounds p [] [[]; []; []] 1 eq_refl).
Defined.

(** X8.  [DefaultCheckpointPolicy.should_checkpoint] is monotone in the
    iteration: a checkpoint at iteration [i] means one at every later
    iteration for the same result and context. *)
Lemma should_checkpoint_monotone (p : Checkpoint.DefaultCheckpointPolicy) (r : Value) (i j : Z)
    (c : Dict) :
  Checkpoint.should_checkpoint p r i c = Some true -> i <= j ->
  Checkpoint.should_checkpoint p r j c = Some true.
Proof.
  unfold Checkpoint.should_checkpoint. intros H Hij.
  destruct (Checkpoint.enabled p); cbn [negb] in *; [|done].
  destruct (Checkpoint.checkpoint_after_iterations p) as [n|]; [|done].
  destruct (truthy (VInt n) && (n <=? i)) eqn:Ei.
  - apply andb_true_iff in Ei as [Hn Hi]. apply Z.leb_le in Hi.
    assert ((n <=? j) = true) as Hj by (apply Z.leb_le; lia). by rewrite Hn, Hj.
  - by destruct (truthy (VInt n) && (n <=? j)).
Qed.

Lemma should_checkpoint_monotone_witness :
  let p := {| Checkpoint.enabled := true; Checkpoint.checkpoint_after_iterations := Some 2;
              Checkpoint.checkpoint_on_operations := []; Checkpoint.checkpoint_on_tools := [] |} in
  Checkpoint.should_checkpoint p VNone 3 [] = Some true /\ 3 <= 5
  /\ Checkpoint.should_checkpoint p VNone 5 [] = Some true.
Proof.
  intros p. split; [reflexivity|]. split; [lia|].
  apply (should_checkpoint_monotone p VNone 3 5 []); [reflexivity|lia].
Defined.

Lemma dict_set_same (d : Dict) k v : dict_lookup (Checkpoint.dict_set d k v) k = Some v.
Proof.
  induction d as [|[k' v'] d IH]; cbn; [by rewrite String.eqb_refl|].
  destruct (String.eqb_spec k k') as [->|Hne]; cbn; [by rewrite String.eqb_refl|].
  by rewrite (proj2 (String.eqb_neq k k') Hne).
Qed.

Lemma dict_set_other (d : Dict) k k0 v : k0 <> k ->
  dict_lookup (Checkpoint.dict_set d k v) k0 = dict_lookup d k0.
Proof.
  intros Hne. induction d as [|[k' v'] d IH]; cbn.
  - by rewrite (proj2 (String.eqb_neq k0 k) Hne).
  - destruct (String.eqb_spec k k') as [<-|Hk]; cbn;
      [by rewrite (proj2 (String.eqb_neq k0 k) Hne)|].
    destruct (String.eqb k0 k'); [done|exact IH].
Qed.

(** X9.  A response of [DefaultCheckpointPolicy.create_checkpoint_response]
    always carries [checkpoint: True]; for a dict result whose payload is a
    dict, the payload also gets the review message and keeps every other
    key of the result's payload with its value. *)
Lemma checkpoint_response_payload (py_str : Value -> string) (result : Value)
    (f : Base.FinalResponse) :
  Checkpoint.create_checkpoint_response py_str result = Some f ->
  dict_lookup (Base.payload f) "checkpoint" = Some (VBool true)
  /\ forall r p, result = VDict r -> get_or r "payload" (VDict []) = VDict p ->
     dict_lookup (Base.payload f) "message" = Some (VStr Checkpoint.checkpoint_message)
     /\ forall k, k <> "checkpoint"%string -> k <> "message"%string ->
        dict_lookup (Base.payload f) k = dict_lookup p k.
Proof.
  unfold Checkpoint.create_checkpoint_response. destruct result as [| | | | |r];
    try (intros [= <-]; split; [reflexivity|intros ?? [=]]).
  destruct (get_or r "payload" (VDict [])) as [| | | | |p] eqn:Ep; try done.
  unfold AgentRun.final_response_of.
  destruct (get_or r "operation" (VStr "display_message")),
    (get_or r "human_readable_summary" (VStr "Intermediate checkpoint")); try done.
  intros [= <-]. cbn [Base.payload]. split.
  - rewrite dict_set_other by done. apply dict_set_same.
  - intros r' p' [= <-] Ep'. rewrite Ep in Ep'. injection Ep' as <-. split; [apply dict_set_same|].
    intros k Hk1 Hk2. rewrite !dict_set_other by done. done.
Qed.

Lemma checkpoint_response_payload_witness :
  let r := [("payload", VDict [("rows", VInt 3)])] in
  let f := Base.mkFinalResponse "display_message"
             [("rows", VInt 3); ("checkpoint", VBool true);
              ("message", VStr Checkpoint.checkpoint_message)] "Intermediate checkpoint" in
  Checkpoint.create_checkpoint_response (fun _ => ""%string) (VDict r) = Some f
  /\ dict_lookup (Base.payload f) "checkpoint" = Some (VBool true).
Proof.
  intros r f. split; [reflexivity|].
  exact (proj1 (checkpoint_response_payload (fun _ => ""%string) (VDict r) f eq_refl)).
Defined.

(** X10.  The request of [DefaultHITLPolicy.create_approval_request],
    handed to [Agent._handle_approval_request], ends the run with an
    [agent_end] of status [pending] and returns an [await_approval]
    response carrying the request's payload and summary; nothing is
    added to memory. *)
Lemma approval_request_response (p : HITL.DefaultHITLPolicy) (tool : string) (args : Dict)
    (s : AgentRun.AgentState) :
  let req := HITL.create_approval_request p tool args in
  AgentRun.handle_approval_request req s
  = Some (AgentRun.publish "agent_end" (Some "pending") s,
          [("operation", VStr "await_approval"); ("payload", get req "payload");
           ("human_readable_summary", VStr ("Approval required: " +:+ tool))]).
Proof. reflexivity. Qed.

End PolicyFacts.

(* ------------------------------------------------------------------ *)
(** ** components/memory.py : shared memory views *)

Module SharedMemoryFacts.
Import Memory.

Lemma list_agent_msgs_append st ns ak msg ns' ak' :
  list_agent_msgs (append_agent_msg st ns ak msg) ns' ak'
  = list_agent_msgs st ns' ak' ++ (if bool_decide (ns' = ns /\ ak' = ak) then [msg] else []).
Proof.
  unfold list_agent_msgs, append_agent_msg. cbn [agent_feeds].
  destruct (decide (ns' = ns)) as [->|Hns].
  - rewrite lookup_insert_eq. unfold feed.
    destruct (decide (ak' = ak)) as [->|Hak].
    + rewrite lookup_insert_eq, bool_decide_true by done.
      by destruct (agent_feeds st !! ns) as [mm|]; [destruct (mm !! ak)|].
    + rewrite lookup_insert_ne by done. rewrite bool_decide_false by naive_solver.
      rewrite app_nil_r. destruct (agent_feeds st !! ns) as [mm|]; [done|].
      by rewrite lookup_empty.
  - rewrite lookup_insert_ne by done. rewrite bool_decide_false by naive_solver.
    by rewrite app_nil_r.
Qed.

(** X11.  After [SharedInMemoryMemory.add] on one view, the history of any
    view of the store gains the message at the end of its own-agent part
    exactly when the view has the same namespace and agent key; the
    conversation and global parts are unchanged. *)
Lemma shared_add_history (m m' : SharedInMemoryMemory) st msg :
  shared_get_history m' (shared_add m st msg)
  = conversation_msgs (list_conversation st (namespace m'))
    ++ (list_agent_msgs st (namespace m') (agent_key m')
        ++ (if bool_decide (namespace m' = namespace m /\ agent_key m' = agent_key m)
            then [msg] else []))
    ++ list_global_updates st (namespace m').
Proof.
  unfold shared_get_history, shared_add. rewrite list_agent_msgs_append. reflexivity.
Qed.

Lemma list_global_updates_append st ns u ns' :
  list_global_updates (append_global_update st ns u) ns'
  = list_global_updates st ns' ++ (if bool_decide (ns' = ns) then [u] else []).
Proof.
  unfold list_global_updates, append_global_update, feed. cbn [global_feeds].
  destruct (decide (ns' = ns)) as [->|Hns].
  - rewrite lookup_insert_eq, bool_decide_true by done. by destruct (global_feeds st !! ns).
  - rewrite lookup_insert_ne by done. rewrite bool_decide_false by done. by rewrite app_nil_r.
Qed.

Lemma list_team_msgs_global st ns u ns' keys :
  list_team_msgs (append_global_update st ns u) ns' keys = list_team_msgs st ns' keys.
Proof. induction keys as [|k keys IH]; cbn; [done|]. by rewrite IH. Qed.

(** X12.  [SharedInMemoryMemory.add_global] broadcasts: every shared or
    hierarchical view of the same namespace sees the update appended at the
    end of its history, views of other namespaces see no change. *)
Lemma add_global_broadcast (m m' : SharedInMemoryMemory) (h : HierarchicalSharedMemory) st u :
  shared_get_history m' (shared_add_global m st u)
  = shared_get_history m' st ++ (if bool_decide (namespace m' = namespace m) then [u] else [])
  /\ hierarchical_get_history h (shared_add_global m st u)
     = hierarchical_get_history h st ++ (if bool_decide (h_namespace h = namespace m) then [u] else []).
Proof.
  unfold shared_get_history, hierarchical_get_history, shared_add_global.
  rewrite !list_global_updates_append, list_team_msgs_global. split.
  - rewrite !app_assoc. reflexivity.
  - rewrite !app_assoc. reflexivity.
Qed.

End SharedMemoryFacts.

(* ------------------------------------------------------------------ *)
(** ** policies/history_filters.py and DefaultCompletionDetector *)

Module HistoryFilterTurnFacts.
Import HistoryFilters.

Lemma scan_back_spec (h : list Dict) (i : nat) : (i <= List.length h)%nat ->
  (scan_back h i = -1
   /\ forall j e, (j < i)%nat -> h !! j = Some e -> py_eq (get e "type") (VStr TASK) = false)
  \/ exists j e, scan_back h i = Z.of_nat j /\ (j < i)%nat /\ h !! j = Some e
     /\ py_eq (get e "type") (VStr TASK) = true
     /\ forall k e', (j < k < i)%nat -> h !! k = Some e' -> py_eq (get e' "type") (VStr TASK) = false.
Proof.
  induction i as [|i IH]; intros Hi.
  - left. split; [done|]. intros; lia.
  - cbn. destruct (lookup_lt_is_Some_2 h i) as [e He]; [lia|]. rewrite He.
    destruct (py_eq (get e "type") (VStr TASK)) eqn:Et.
    + right. exists i, e. repeat split; try done; [lia|]. intros; lia.
    + destruct IH as [[H1 H2]|(j & e' & H1 & H2 & H3 & H4 & H5)]; [lia| |].
      * left. split; [done|]. intros j e'' Hj Hl.
        destruct (decide (j = i)) as [->|Hne]; [congruence|]. apply (H2 j); [lia|done].
      * right. exists j, e'. repeat split; try done; [lia|]. intros k e'' Hk Hl.
        destruct (decide (k = i)) as [->|Hne]; [congruence|]. apply (H5 k); [lia|done].
Qed.

Lemma find_last_task_marker_spec (h : list Dict) :
  (find_last_task_marker h = -1 /\ Forall (fun e => py_eq (get e "type") (VStr TASK) = false) h)
  \/ exists j e, find_last_task_marker h = Z.of_nat j /\ h !! j = Some e
     /\ py_eq (get e "type") (VStr TASK) = true
     /\ Forall (fun e => py_eq (get e "type") (VStr TASK) = false) (drop (S j) h).
Proof.
  unfold find_last_task_marker.
  destruct (scan_back_spec h (List.length h)) as [[H1 H2]|(j & e & H1 & H2 & H3 & H4 & H5)]; [done| |].
  - left. split; [done|]. apply Forall_lookup. intros j e He.
    apply (H2 j); [|done]. by apply lookup_lt_Some in He.
  - right. exists j, e. repeat split; try done. apply Forall_lookup. intros k e' He'.
    rewrite lookup_drop in He'. apply (H5 (S j + k)%nat); [|done].
    apply lookup_lt_Some in He'. lia.
Qed.

Lemma py_slice_from_pos {A} (n : nat) (l : list A) :
  py_slice_from (Z.of_nat n) l = drop n l.
Proof.
  unfold py_slice_from. destruct (Z.ltb_spec (Z.of_nat n) 0); [lia|].
  destruct (decide (n <= List.length l)%nat).
  - by rewrite Z.min_l, Nat2Z.id by lia.
  - rewrite Z.min_r, Nat2Z.id by lia. rewrite !drop_ge by lia. done.
Qed.

(** X13.  [WorkerHistoryFilter.filter_for_prompt] keeps only execution
    trace entries and global observations of the current turn, so never a
    task entry, and gives nothing for a history without a task entry. *)
Lemma worker_filter_no_task (h : list Dict) (c : Dict) (out : list Dict) :
  worker_filter h c = Some out ->
  Forall (fun e => py_eq (get e "type") (VStr TASK) = false
                   /\ type_in e (EXECUTION_TRACE_TYPES ++ [GLOBAL_OBSERVATION]) = true) out
  /\ (Forall (fun e => py_eq (get e "type") (VStr TASK) = false) h -> out = []).
Proof.
  unfold worker_filter.
  destruct (find_last_task_marker_spec h) as [[-> Hall]|(j & e & -> & He & Ht & Hd)].
  - cbn. intros [= <-]. split; [constructor|done].
  - destruct (Z.ltb_spec (Z.of_nat j) 0); [lia|].
    replace (Z.of_nat j + 1) with (Z.of_nat (S j)) by lia. rewrite py_slice_from_pos.
    intros [= <-]. split.
    + apply Forall_forall. intros x Hx. apply list_elem_of_In, List.filter_In in Hx as [Hx Hty].
      split; [|done]. rewrite Forall_forall in Hd. apply Hd. by apply list_elem_of_In.
    + intros Hall. rewrite Forall_lookup in Hall. apply Hall in He. congruence.
Qed.

Lemma worker_filter_no_task_witness :
  let h := [[("type", VStr TASK); ("content", VStr "T")];
            [("type", VStr ACTION); ("tool", VStr "list_tables")];
            [("type", VStr USER_MESSAGE); ("content", VStr "hi")]] in
  worker_filter h [] = Some [[("type", VStr ACTION); ("tool", VStr "list_tables")]]
  /\ Forall (fun e => py_eq (get e "type") (VStr TASK) = false
                      /\ type_in e (EXECUTION_TRACE_TYPES ++ [GLOBAL_OBSERVATION]) = true)
       [[("type", VStr ACTION); ("tool", VStr "list_tables")]].
Proof.
  intros h. split; [reflexivity|].
  exact (proj1 (worker_filter_no_task h [] _ eq_refl)).
Defined.


Lemma orchestrator_filter_eq n h c m :
  effective_max_turns n c = Some m ->
  orchestrator_filter n h c
  = Some (py_slice_from (- m) (List.filter (fun e => type_in e CONVERSATION_TYPES) h)).
Proof. unfold effective_max_turns, orchestrator_filter. by intros ->. Qed.

(** X14.  With a positive integer turn limit [m] (from the context or the
    constructor), [OrchestratorHistoryFilter.filter_for_prompt] returns the
    last [min(m, len)] user and assistant messages, in order. *)
Lemma orchestrator_keeps_last n h c m :
  effective_max_turns n c = Some m -> 0 < m ->
  exists out pre, orchestrator_filter n h c = Some out
  /\ List.filter (fun e => type_in e CONVERSATION_TYPES) h = pre ++ out
  /\ List.length out = Nat.min (Z.to_nat m) (List.length (List.filter (fun e => type_in e CONVERSATION_TYPES) h)).
Proof.
  intros Hm Hpos. rewrite (orchestrator_filter_eq n h c m Hm).
  set (conv := List.filter _ h).
  unfold py_slice_from. destruct (Z.ltb_spec (- m) 0); [|lia].
  eexists _, (take (Z.to_nat (Z.max 0 (Z.of_nat (List.length conv) + - m))) conv).
  split; [reflexivity|]. split; [by rewrite take_drop|].
  rewrite length_drop. lia.
Qed.

Lemma orchestrator_keeps_last_witness :
  let h := [[("type", VStr USER_MESSAGE); ("content", VStr "a")];
            [("type", VStr ACTION); ("tool", VStr "t")];
            [("type", VStr ASSISTANT_MESSAGE); ("content", VStr "b")];
            [("type", VStr USER_MESSAGE); ("content", VStr "c")]] in
  effective_max_turns 2 [] = Some 2 /\ 0 < 2
  /\ exists out pre, orchestrator_filter 2 h [] = Some out
     /\ List.filter (fun e => type_in e CONVERSATION_TYPES) h = pre ++ out
     /\ List.length out = Nat.min 2 3.
Proof.
  intros h. split; [reflexivity|]. split; [lia|].
  exact (orchestrator_keeps_last 2 h [] 2 eq_refl ltac:(lia)).
Defined.


(** X15.  With a turn limit [m <= 0], [conversation[-m:]] does not keep the
    last messages: it drops the first [-m] messages, and keeps them all for
    [m = 0]. *)
Lemma orchestrator_nonpositive n h c m :
  effective_max_turns n c = Some m -> m <= 0 ->
  orchestrator_filter n h c
  = Some (drop (Z.to_nat (- m)) (List.filter (fun e => type_in e CONVERSATION_TYPES) h)).
Proof.
  intros Hm Hle. rewrite (orchestrator_filter_eq n h c m Hm). f_equal.
  set (conv := List.filter _ h).
  replace (- m) with (Z.of_nat (Z.to_nat (- m))) at 1 by lia. apply py_slice_from_pos.
Qed.

Lemma orchestrator_nonpositive_witness :
  let h := [[("type", VStr USER_MESSAGE); ("content", VStr "a")];
            [("type", VStr ASSISTANT_MESSAGE); ("content", VStr "b")]] in
  let c := [("max_conversation_turns", VInt (-1))] in
  effective_max_turns 5 c = Some (-1) /\ -1 <= 0
  /\ orchestrator_filter 5 h c = Some [[("type", VStr ASSISTANT_MESSAGE); ("content", VStr "b")]].
Proof.
  intros h c. split; [reflexivity|]. split; [lia|].
  exact (orchestrator_nonpositive 5 h c (-1) eq_refl ltac:(lia)).
Defined.


End HistoryFilterTurnFacts.

Module CompletionTurnFacts.
Import HistoryFilterTurnFacts Completion.

Lemma current_turn_spec (h : list Dict) :
  (Forall (fun e => py_eq (get e "type") (VStr TASK) = false) h /\ get_current_turn_history h = h)
  \/ exists a e, h = a ++ e :: get_current_turn_history h /\ py_eq (get e "type") (VStr TASK) = true
     /\ Forall (fun e => py_eq (get e "type") (VStr TASK) = false) (get_current_turn_history h).
Proof.
  destruct h as [|x h']; [left; split; [constructor|done]|].
  unfold get_current_turn_history.
  destruct (find_last_task_marker_spec (x :: h')) as [[-> Hall]|(j & e & -> & He & Ht & Hd)].
  - left. by split.
  - right. destruct (Z.ltb_spec (Z.of_nat j) 0); [lia|].
    replace (Z.of_nat j + 1) with (Z.of_nat (S j)) by lia. rewrite py_slice_from_pos.
    exists (take j (x :: h')), e. split; [|by split].
    symmetry. by apply take_drop_middle.
Qed.

(** X16.  [DefaultCompletionDetector._get_current_turn_history] never
    contains a task entry: it is the part after the last one, or the whole
    history when there is none. *)
Lemma current_turn_no_task (h : list Dict) :
  Forall (fun e => py_eq (get e "type") (VStr TASK) = false) (get_current_turn_history h).
Proof. by destruct (current_turn_spec h) as [[H ->]|(a & e & _ & _ & H)]. Qed.

Lemma last_task_unique (a b l1 l2 : list Dict) (e1 e2 : Dict) :
  a ++ e1 :: l1 = b ++ e2 :: l2 ->
  py_eq (get e1 "type") (VStr TASK) = true -> py_eq (get e2 "type") (VStr TASK) = true ->
  Forall (fun e => py_eq (get e "type") (VStr TASK) = false) l1 ->
  Forall (fun e => py_eq (get e "type") (VStr TASK) = false) l2 -> l1 = l2.
Proof.
  intros Heq H1 H2 F1 F2. apply app_eq_app in Heq as [k [[-> Hk]|[-> Hk]]].
  - destruct k as [|y k]; cbn in Hk; [congruence|]. injection Hk as -> ->.
    rewrite Forall_app, Forall_cons in F2. destruct F2 as [_ [F _]]. congruence.
  - destruct k as [|y k]; cbn in Hk; [congruence|]. injection Hk as -> ->.
    rewrite Forall_app, Forall_cons in F1. destruct F1 as [_ [F _]]. congruence.
Qed.

Lemma current_turn_app (pre t : list Dict) (e : Dict) :
  py_eq (get e "type") (VStr TASK) = true ->
  get_current_turn_history (pre ++ e :: t) = get_current_turn_history (e :: t).
Proof.
  intros He.
  destruct (current_turn_spec (e :: t)) as [[F _]|(a & e1 & H1 & Ht1 & F1)].
  { apply Forall_cons in F as [F _]. congruence. }
  destruct (current_turn_spec (pre ++ e :: t)) as [[F _]|(b & e2 & H2 & Ht2 & F2)].
  { apply Forall_app in F as [_ F]. apply Forall_cons in F as [F _]. congruence. }
  symmetry. eapply (last_task_unique (pre ++ a) b); [|exact Ht1|exact Ht2|exact F1|exact F2].
  rewrite <- app_assoc, <- H1. exact H2.
Qed.

(** X17.  [DefaultCompletionDetector.is_complete] looks only at the
    current turn: entries before the last task entry do not change its
    answer. *)
Lemma is_complete_ignores_earlier_turns d py_str r (pre t : list Dict) (e : Dict) :
  py_eq (get e "type") (VStr TASK) = true ->
  is_complete d py_str r (pre ++ e :: t) = is_complete d py_str r (e :: t).
Proof. intros He. unfold is_complete. by rewrite current_turn_app. Qed.

Lemma is_complete_ignores_earlier_turns_witness :
  let e := [("type", VStr TASK); ("content", VStr "second task")] in
  let pre := [[("type", VStr TASK); ("content", VStr "first task")];
              [("type", VStr FINAL); ("content", VStr "done")]] in
  py_eq (get e "type") (VStr TASK) = true
  /\ is_complete default_detector (fun _ => ""%string) VNone (pre ++ [e]) = Some false
  /\ is_complete default_detector (fun _ => ""%string) VNone (pre ++ [e])
     = is_complete default_detector (fun _ => ""%string) VNone [e].
Proof.
  intros e pre. split; [reflexivity|]. split; [vm_compute; reflexivity|].
  exact (is_complete_ignores_earlier_turns default_detector (fun _ => ""%string) VNone pre [] e
           eq_refl).
Defined.


Lemma current_turn_length h : (List.length (get_current_turn_history h) <= List.length h)%nat.
Proof.
  destruct (current_turn_spec h) as [[_ ->]|(a & e & H & _)]; [done|].
  rewrite H at 2. rewrite length_app. cbn. lia.
Qed.

(** X18.  A [check_history_depth] of [0] does not disable the history
    check: [[-0:]] is the whole current turn, so depth [0] answers as any
    depth at least as long as the history. *)
Lemma is_complete_depth_zero d py_str r h (D : Z) :
  Z.of_nat (List.length h) <= D ->
  is_complete (with_depth d 0) py_str r h = is_complete (with_depth d D) py_str r h.
Proof.
  intros HD. unfold is_complete. cbn [check_history_depth with_depth].
  pose proof (current_turn_length h) as Hl.
  set (cur := get_current_turn_history h) in *.
  assert (E : forall n, 0 <= n -> Z.of_nat (List.length cur) <= n -> py_slice_from (- n) cur = cur).
  { intros n Hn Hc. unfold py_slice_from.
    destruct (Z.ltb_spec (- n) 0).
    - rewrite Z.max_l by lia. reflexivity.
    - rewrite Z.min_l by lia. replace (Z.to_nat (- n)) with 0%nat by lia. reflexivity. }
  assert (E0 : py_slice_from (- 0) cur = cur).
  { unfold py_slice_from. cbn -[drop]. by rewrite Z.min_l by lia. }
  rewrite E0, (E D) by lia. reflexivity.
Qed.

Lemma is_complete_depth_zero_witness :
  let h := [[("type", VStr TASK); ("content", VStr "T")];
            [("type", VStr OBSERVATION); ("content", VStr "task complete")];
            [("type", VStr ACTION); ("tool", VStr "list_tables")]] in
  Z.of_nat (List.length h) <= 10
  /\ is_complete (with_depth default_detector 0) (fun _ => ""%string) VNone h = Some true
  /\ is_complete (with_depth default_detector 0) (fun _ => ""%string) VNone h
     = is_complete (with_depth default_detector 10) (fun _ => ""%string) VNone h.
Proof.
  intros h. split; [cbn; lia|]. split; [vm_compute; reflexivity|].
  exact (is_complete_depth_zero default_detector (fun _ => ""%string) VNone h 10
           ltac:(cbn; lia)).
Defined.


End CompletionTurnFacts.

(* ------------------------------------------------------------------ *)
(** ** policies/default.py : DefaultLoopPreventionPolicy.detect_stagnation *)

Module StagnationFacts.
Import LoopPrevention.

Section PySet.
Context {A : Type} (eq : A -> A -> bool).
Hypothesis eq_r : forall x, eq x x = true.
Hypothesis eq_s : forall x y, eq x y = eq y x.
Hypothesis eq_t : forall x y z, eq x y = true -> eq y z = true -> eq x z = true.

Lemma py_set_sub (l : list A) x : In x (py_set eq l) -> In x l.
Proof.
  induction l as [|y l IH]; cbn; [done|].
  destruct (existsb (eq y) (py_set eq l)); cbn; [naive_solver|]. naive_solver.
Qed.

Lemma py_set_cover (l : list A) x : In x l -> exists y, In y (py_set eq l) /\ eq x y = true.
Proof.
  induction l as [|y l IH]; cbn; [done|]. intros [<-|Hx].
  - destruct (existsb (eq y) (py_set eq l)) eqn:E.
    + apply existsb_exists in E as (z & Hz & Hxz). by exists z.
    + exists y. split; [by left|apply eq_r].
  - destruct (IH Hx) as (z & Hz & Hxz).
    destruct (existsb (eq y) (py_set eq l)); [by exists z|]. exists z. split; [by right|done].
Qed.

Lemma py_set_length_one (l : list A) :
  List.length (py_set eq l) = 1%nat <-> l <> [] /\ all_equal eq l.
Proof.
  split.
  - intros H. destruct (py_set eq l) as [|z [|]] eqn:E; try discriminate.
    assert (Hall : forall x, In x l -> eq x z = true).
    { intros x Hx. destruct (py_set_cover l x Hx) as (y & Hy & Hxy). rewrite E in Hy.
      destruct Hy as [<-|[]]. done. }
    split.
    + intros ->. discriminate.
    + intros x y Hx Hy. apply (eq_t x z y); [by apply Hall|]. rewrite eq_s. by apply Hall.
  - induction l as [|x l IH]; intros [Hne Hall]; [done|]. cbn.
    destruct l as [|x' l'].
    + reflexivity.
    + assert (Hl : List.length (py_set eq (x' :: l')) = 1%nat).
      { apply IH. split; [done|]. intros a b Ha Hb. apply Hall; by right. }
      destruct (py_set eq (x' :: l')) as [|z [|]] eqn:E; try discriminate.
      assert (Hz : In z (x' :: l')) by (apply py_set_sub; rewrite E; by left).
      cbn. rewrite (Hall x z (or_introl (Logic.eq_refl x)) (or_intror Hz)). reflexivity.
Qed.
End PySet.

Lemma py_slice_from_neg {B} (n : Z) (l : list B) : 0 < n -> n <= Z.of_nat (List.length l) ->
  py_slice_from (- n) l = drop (List.length l - Z.to_nat n) l.
Proof.
  intros Hn Hl. unfold py_slice_from. destruct (Z.ltb_spec (- n) 0); [|lia].
  f_equal. lia.
Qed.

(** X19.  For an equivalence on action signatures, an enabled policy with
    a positive threshold [n] and no completion signal,
    [DefaultLoopPreventionPolicy.detect_stagnation] reports stagnation
    exactly when both histories have at least [n] entries, the last [n]
    actions are all equal and the last [n] observations have the same
    string form. *)
Lemma stagnation_repetition (Act : Type) (act_eq : Act -> Act -> bool) (act_str : Act -> string)
    (py_str : Value -> string) (json_loads : string -> option Value)
    (p : DefaultLoopPreventionPolicy) (ah : list Act) (oh : list Value) :
  (forall x, act_eq x x = true) -> (forall x y, act_eq x y = act_eq y x) ->
  (forall x y z, act_eq x y = true -> act_eq y z = true -> act_eq x z = true) ->
  enabled p = true -> 0 < repetition_threshold p ->
  completion_fires json_loads p oh = Some false ->
  let n := Z.to_nat (repetition_threshold p) in
  (exists msg, detect_stagnation Act act_eq act_str py_str json_loads p ah oh = Some (Some msg))
  <-> (n <= List.length ah)%nat /\ (n <= List.length oh)%nat
      /\ all_equal act_eq (drop (List.length ah - n) ah)
      /\ all_equal String.eqb (map (AgentRun.to_str py_str) (drop (List.length oh - n) oh)).
Proof.
  intros Hr Hs Ht He Hn Hc n. unfold detect_stagnation. rewrite He, Hc. cbn [negb].
  set (N := repetition_threshold p) in *.
  assert (SE : forall x y : string, String.eqb x y = String.eqb y x).
  { intros x y. destruct (String.eqb_spec x y), (String.eqb_spec y x); congruence. }
  assert (SR : forall x : string, String.eqb x x = true) by apply String.eqb_refl.
  assert (ST : forall x y z : string, String.eqb x y = true -> String.eqb y z = true -> String.eqb x z = true).
  { intros x y z. rewrite !String.eqb_eq. congruence. }
  destruct (Z.ltb_spec (Z.of_nat (List.length ah)) N).
  { split; [intros [? [=]]|]. intros [H1 _]. lia. }
  rewrite (py_slice_from_neg N ah) by lia.
  destruct (Nat.eqb_spec (List.length (py_set act_eq (drop (List.length ah - Z.to_nat N) ah))) 1)
    as [E1|E1].
  2:{ split; [intros [? [=]]|]. intros (_ & _ & Ha & _). exfalso. apply E1.
      apply py_set_length_one; [done|done|done|]. split; [|done].
      intros Hd. apply (f_equal List.length) in Hd. rewrite length_drop in Hd. cbn in Hd. lia. }
  destruct (Z.leb_spec N (Z.of_nat (List.length oh))).
  2:{ split; [intros [? [=]]|]. intros (_ & H2 & _). lia. }
  rewrite (py_slice_from_neg N oh) by lia.
  destruct (Nat.eqb_spec (List.length (py_set String.eqb
              (map (AgentRun.to_str py_str) (drop (List.length oh - Z.to_nat N) oh)))) 1) as [E2|E2].
  - split; [intros _|intros _; eexists; reflexivity].
    apply py_set_length_one in E1 as [_ E1]; [|done|done|done].
    apply py_set_length_one in E2 as [_ E2]; [|done|done|done].
    repeat split; try done; lia.
  - split; [intros [? [=]]|]. intros (_ & _ & _ & Ho). exfalso. apply E2.
    apply py_set_length_one; [done|done|done|]. split; [|done].
    intros Hd. apply (f_equal List.length) in Hd. rewrite length_map, length_drop in Hd. cbn in Hd. lia.
Qed.

Lemma string_eqb_sym (x y : string) : String.eqb x y = String.eqb y x.
Proof. destruct (String.eqb_spec x y), (String.eqb_spec y x); congruence. Qed.

Lemma string_eqb_trans (x y z : string) :
  String.eqb x y = true -> String.eqb y z = true -> String.eqb x z = true.
Proof. rewrite !String.eqb_eq. congruence. Qed.

Lemma stagnation_repetition_witness :
  let p := {| enabled := true; action_window := 5; observation_window := 5;
              repetition_threshold := 2; check_completion_in_loop := true;
              detector_is_complete := fun _ _ => Some false; on_stagnation := "warn" |} in
  let ah := ["list_tables"; "list_tables"; "list_tables"]%string in
  let oh := [VStr "x"; VStr "[]"; VStr "[]"] in
  enabled p = true /\ 0 < repetition_threshold p
  /\ completion_fires (fun _ => None) p oh = Some false
  /\ ((exists msg, detect_stagnation string String.eqb (fun a => a) (fun _ => ""%string)
                     (fun _ => None) p ah oh = Some (Some msg))
      <-> (2 <= 3)%nat /\ (2 <= 3)%nat
          /\ all_equal String.eqb (drop (3 - 2) ah)
          /\ all_equal String.eqb (map (AgentRun.to_str (fun _ => ""%string)) (drop (3 - 2) oh))).
Proof.
  intros p ah oh. split; [reflexivity|]. split; [cbn; lia|]. split; [reflexivity|].
  exact (stagnation_repetition string String.eqb (fun a => a) (fun _ => ""%string) (fun _ => None)
           p ah oh String.eqb_refl string_eqb_sym string_eqb_trans eq_refl ltac:(cbn; lia) eq_refl).
Defined.


(** X20.  When the policy's detector is the default one, a string last
    observation triggers the completion signal of [detect_stagnation]
    ("Task appears complete but agent continues execution") only if
    [json.loads] turns it into a JSON object. *)
Lemma completion_signal_needs_json_object (Act : Type) (act_eq : Act -> Act -> bool)
    (act_str : Act -> string) (py_str : Value -> string) (json_loads : string -> option Value)
    (p : DefaultLoopPreventionPolicy) (d : Completion.DefaultCompletionDetector)
    (ah : list Act) (oh : list Value) (x : string) :
  detector_is_complete p = Completion.is_complete d py_str ->
  last oh = Some (VStr x) ->
  detect_stagnation Act act_eq act_str py_str json_loads p ah oh
    = Some (Some "Task appears complete but agent continues execution") ->
  exists r, json_loads x = Some (VDict r).
Proof.
  intros Hd Hl H. unfold detect_stagnation in H.
  destruct (enabled p); cbn [negb] in H; [|discriminate].
  destruct (completion_fires json_loads p oh) as [[|]|] eqn:Ec; [|exfalso|discriminate].
  2:{ repeat match type of H with
             | context [if ?b then _ else _] => destruct b
             end; discriminate. }
  unfold completion_fires in Ec. destruct (check_completion_in_loop p); [|discriminate].
  apply last_Some in Hl as [l' ->]. rewrite rev_unit in Ec. rewrite Hd in Ec.
  assert (Hnd : forall v, (forall r, v <> VDict r) -> Completion.is_complete d py_str v [] = Some false).
  { intros v Hv. unfold Completion.is_complete.
    destruct v as [| | | | |r]; [| | | | |by destruct (Hv r)]; unfold py_slice_from;
      cbn -[drop]; by rewrite drop_nil. }
  destruct (json_loads x) as [v|].
  - destruct v as [| | | | |r]; [| | | | |by exists r]; rewrite Hnd in Ec; done.
  - rewrite Hnd in Ec; done.
Qed.

Lemma completion_signal_needs_json_object_witness :
  let p := {| enabled := true; action_window := 5; observation_window := 5;
              repetition_threshold := 3; check_completion_in_loop := true;
              detector_is_complete := Completion.is_complete Completion.default_detector
                                        (fun _ => ""%string);
              on_stagnation := "warn" |} in
  let json_loads := fun x : string =>
    if String.eqb x "{completed: true}" then Some (VDict [("completed", VBool true)]) else None in
  let oh := [VStr "{completed: true}"] in
  detector_is_complete p = Completion.is_complete Completion.default_detector (fun _ => ""%string)
  /\ last oh = Some (VStr "{completed: true}")
  /\ detect_stagnation string String.eqb (fun a => a) (fun _ => ""%string) json_loads p [] oh
     = Some (Some "Task appears complete but agent continues execution")
  /\ exists r, json_loads "{completed: true}"%string = Some (VDict r).
Proof.
  intros p json_loads oh. split; [reflexivity|]. split; [reflexivity|]. split; [reflexivity|].
  exact (completion_signal_needs_json_object string String.eqb (fun a => a) (fun _ => ""%string)
           json_loads p Completion.default_detector [] oh "{completed: true}" eq_refl eq_refl eq_refl).
Defined.


End StagnationFacts.

(* ------------------------------------------------------------------ *)
(** ** core/manager_v2.py : ManagerAgent._execute_phases_sequentially *)

Module PhaseWorkerFacts.
Import Phases.

Lemma worker_calls_app (l1 l2 : list MEvent) :
  worker_calls (l1 ++ l2) = worker_calls l1 ++ worker_calls l2.
Proof. apply List.filter_app. Qed.

Lemma worker_calls_pub n i (l : list MEvent) : worker_calls (Publish n i :: l) = worker_calls l.
Proof. reflexivity. Qed.

Lemma delegate_calls wr py_str (m : ManagerAgent) w t a p devs r :
  delegate wr py_str m w t a p = (devs, r) ->
  (forall w' t' cp, In (WorkerRun w' t' cp) devs -> w' = w)
  /\ (List.length (worker_calls devs) <= 1)%nat.
Proof.
  unfold delegate. intros H.
  destruct (truthy (VList (list_arg a "script"))), (truthy (VList (list_arg a "suggested_plan"))),
    (existsb (String.eqb w) (manager_workers m));
    injection H as <- <-; (split; [intros w' t' cp Hin; cbn in Hin; naive_solver|cbn; lia]).
Qed.

Lemma phase_loop_workers wr py_str fpr (m : ManagerAgent) task args plan total
    (phases : list Dict) idx prev ws rs evs out :
  phase_loop wr py_str fpr m task args plan total phases idx prev ws rs = Some (evs, out) ->
  (forall w t cp, In (WorkerRun w t cp) evs -> In w (workers m))
  /\ (List.length (worker_calls evs) <= List.length phases)%nat
  /\ (forall ws' rs', out = PhasesDone ws' rs' -> forall w, In w ws' -> In w ws \/ In w (workers m)).
Proof.
  revert idx prev ws rs evs out.
  induction phases as [|phase rest IH]; intros idx prev ws rs evs out H.
  - cbn in H. injection H as <- <-. split; [done|]. split; [cbn; lia|]. intros ?? [= <- <-]. by left.
  - cbn [phase_loop] in H.
    destruct (get_stripped phase "worker") as [pw|]; [|discriminate].
    destruct (String.eqb pw "" || negb (existsb (String.eqb pw) (workers m))) eqn:Eu.
    + destruct (IH _ _ _ _ _ _ H) as (H1 & H2 & H3). split; [done|]. split; [cbn; lia|done].
    + apply orb_false_iff in Eu as [_ Ein]. apply negb_false_iff, existsb_exists in Ein as (w0 & Hw0 & Ew0).
      apply String.eqb_eq in Ew0. subst w0.
      destruct (get_stripped phase "goals") as [goals|]; [|discriminate].
      destruct (delegate wr py_str m pw _ _ _) as [devs pr] eqn:Ed.
      destruct (delegate_calls _ _ _ _ _ _ _ _ _ Ed) as [Hd1 Hd2].
      assert (Hh : forall s1 s2 w t cp,
                 In (WorkerRun w t cp) ([Publish s1 (Some idx)] ++ devs ++ [Publish s2 (Some idx)])
                 -> In w (workers m)).
      { intros s1 s2 w t cp Hin. apply in_app_iff in Hin as [[Hin|[]]|Hin]; [discriminate|].
        apply in_app_iff in Hin as [Hin|[Hin|[]]]; [|discriminate].
        by rewrite (Hd1 _ _ _ Hin). }
      destruct (py_eq (get pr "operation") (VStr "await_approval")).
      * injection H as <- <-. split; [apply Hh|].
        split; [|done]. repeat first [rewrite worker_calls_app | rewrite worker_calls_pub | rewrite length_app]. cbn [worker_calls List.filter Datatypes.length] in *. lia.
      * destruct (phase_loop _ _ _ _ _ _ _ _ _ _ _ _ _) as [[evs' out']|] eqn:Er; [|discriminate].
        injection H as <- <-. destruct (IH _ _ _ _ _ _ Er) as (H1 & H2 & H3). split; [|split].
        -- intros w t cp Hin. destruct Hin as [Hin|Hin]; [discriminate|].
           apply in_app_iff in Hin as [Hin|Hin]; [|by eapply H1].
           exact (Hh ""%string _ w t cp (or_intror Hin)).
        -- repeat first [rewrite worker_calls_app | rewrite worker_calls_pub | rewrite length_app]. cbn [worker_calls List.filter Datatypes.length] in *. lia.
        -- intros ws' rs' Ho w Hw. destruct (H3 ws' rs' Ho w Hw) as [Hw'|Hw']; [|by right].
           apply in_app_iff in Hw' as [Hw'|Hw']; [by left|]. destruct Hw' as [<-|[]]. by right.
Qed.

(** X21.  [ManagerAgent._execute_phases_sequentially] only runs the
    manager's own workers (phases naming another worker are skipped), at
    most one worker run per phase, and the workers it reports as run are
    its own. *)
Lemma execute_phases_only_own_workers wr py_str fpr (m : ManagerAgent) (phases : list Dict)
    task args plan evs out :
  execute_phases_sequentially wr py_str fpr m phases task args plan = Some (evs, out) ->
  (forall w t cp, In (WorkerRun w t cp) evs -> In w (workers m))
  /\ (List.length (worker_calls evs) <= List.length phases)%nat
  /\ (forall ws rs, out = PhasesDone ws rs -> forall w, In w ws -> In w (workers m)).
Proof.
  intros H. destruct (phase_loop_workers _ _ _ _ _ _ _ _ _ _ _ _ _ _ _ H) as (H1 & H2 & H3).
  split; [done|]. split; [done|]. intros ws rs Ho w Hw. by destruct (H3 ws rs Ho w Hw).
Qed.

Lemma execute_phases_only_own_workers_witness :
  let m := {| name := "sales_manager"; workers := ["modeler"]%string; manager_workers := [] |} in
  let phases := [[("worker", VStr "modeler"); ("goals", VStr "add a measure")];
                 [("worker", VStr "unknown"); ("goals", VStr "anything")]] in
  exists evs out,
    execute_phases_sequentially (fun _ _ _ _ => VDict [("operation", VStr "display_message")])
      (fun _ => ""%string) (fun _ => ""%string) m phases "T" [] VNone = Some (evs, out)
    /\ List.length (worker_calls evs) = 1%nat
    /\ (List.length (worker_calls evs) <= List.length phases)%nat.
Proof.
  intros m phases. do 2 eexists. split; [reflexivity|]. split; [reflexivity|].
  refine (proj1 (proj2 (execute_phases_only_own_workers
    (fun _ _ _ _ => VDict [("operation", VStr "display_message")]) (fun _ => ""%string)
    (fun _ => ""%string) m phases "T" [] VNone _ _ eq_refl))).
Defined.

End PhaseWorkerFacts.

(* ------------------------------------------------------------------ *)
(** ** core/agent.py : what a run leaves in memory and in the trace *)

Module AgentRunInvariants.
Import AgentRun Base.

Section AgentInvariants.
Variable tools : string -> option Tool.
Variable policy_evaluate : string -> Dict -> option bool.
Variable failure_str : Failure -> string.
Variable py_str : Value -> string.
Variable plan : nat -> list Dict -> PlanOutcome.
Variable should_terminate : nat -> PlanOutcome -> list Dict -> bool.
Variable detect_stagnation : list (list (string * Dict)) -> list string -> option string.
Variable requires_approval : string -> Dict -> bool.
Variable create_approval_request : string -> Dict -> Dict.
Variable is_complete : Value -> list Dict -> bool.
Variable should_checkpoint : Value -> nat -> Value -> bool.
Variable create_checkpoint_response : Value -> FinalResponse.
Variable convert_get_tool_result_to_message : string -> Dict -> Dict -> FinalResponse.
Variable convert_completion : Action -> Value -> option FinalResponse.

Local Abbreviation ext := (extends tools policy_evaluate).
Local Abbreviation ok := (step_ok tools policy_evaluate).
Local Abbreviation allowed := (tool_run_allowed tools policy_evaluate).

Lemma ext_refl s : ext s s.
Proof. exists [], []. rewrite !app_nil_r. done. Qed.

Lemma ext_trans s1 s2 s3 : ext s1 s2 -> ext s2 s3 -> ext s1 s3.
Proof.
  intros (m1 & e1 & Hm1 & He1 & Hf1) (m2 & e2 & Hm2 & He2 & Hf2).
  exists (m1 ++ m2), (e1 ++ e2). rewrite Hm2, He2, Hm1, He1, <-!app_assoc.
  split; [done|split; [done|]]. by apply Forall_app.
Qed.

Lemma ext_add e s : ext s (add e s).
Proof. exists [e], []. cbn. rewrite app_nil_r. done. Qed.

Lemma ext_emit evs s : Forall allowed evs -> ext s (emit evs s).
Proof. intros H. exists [], evs. cbn. rewrite app_nil_r. done. Qed.

Lemma ext_publish n st s : ext s (publish n st s).
Proof. apply ext_emit. repeat constructor. Qed.

Lemma ends_publish st s : ends_with_agent_end (publish "agent_end" st s).
Proof. exists st. cbn. apply last_snoc. Qed.

Ltac ext_chain :=
  repeat match goal with
  | |- ext ?s ?s => apply ext_refl
  | |- ext ?s (add ?e ?s') => apply (ext_trans s s' (add e s')); [|apply ext_add]
  | |- ext ?s (publish ?n ?st ?s') => apply (ext_trans s s' (publish n st s')); [|apply ext_publish]
  | |- ext ?s (emit ?evs ?s') => apply (ext_trans s s' (emit evs s')); [|apply ext_emit]
  end.

Lemma handle_final_response_ok f s : ok s (let '(s', r) := handle_final_response f s in Return s' r).
Proof. cbn. split; [ext_chain|apply ends_publish]. Qed.

Lemma create_error_response_ok msg b s : ok s (let '(s', r) := create_error_response msg b s in Return s' r).
Proof. cbn. split; [ext_chain|apply ends_publish]. Qed.

Lemma handle_checkpoint_ok f s : ok s (let '(s', r) := handle_checkpoint f s in Return s' r).
Proof. cbn. split; [ext_chain|apply ends_publish]. Qed.

Lemma create_completion_response_ok msg r s : ok s (of_outcome (create_completion_response msg r s)).
Proof.
  unfold create_completion_response.
  destruct r as [| | | | |d]; try apply handle_final_response_ok.
  destruct (truthy (VDict d)); [|apply handle_final_response_ok].
  destruct (final_response_of _ _ _); [apply handle_final_response_ok|done].
Qed.

Lemma handle_approval_request_ok req s : ok s (of_outcome (handle_approval_request req s)).
Proof.
  unfold handle_approval_request. destruct (approval_final req); [|done].
  cbn. split; [ext_chain|apply ends_publish].
Qed.

Lemma handle_execution_errors_ok results s :
  ok s (let '(s', r) := handle_execution_errors failure_str results s in Return s' r).
Proof. cbn. split; [ext_chain|apply ends_publish]. Qed.

Lemma ok_mono s1 s2 st : ext s1 s2 -> ok s2 st -> ok s1 st.
Proof.
  intros H. destruct st; cbn; [intros [? ?]; split|intros ?|done]; eauto using ext_trans.
Qed.

Lemma execute_actions_runs_allowed actions :
  Forall allowed (fst (execute_actions tools policy_evaluate actions)).
Proof.
  unfold execute_actions; cbn [fst]. apply Forall_forall. intros ev Hev.
  apply list_elem_of_In, in_flat_map in Hev as [[evs r] [Hin Hev]].
  apply in_map_iff in Hin as [a [Ha _]]. cbn in Hev.
  unfold prepare in Ha.
  destruct (tools (tool_name a)) as [t|] eqn:Ht; [|injection Ha as <- _; done].
  destruct (validate t (tool_args a)) as [kw|] eqn:Hv; [|injection Ha as <- _; done].
  cbn in Ha. destruct (policy_allowed (policy_evaluate (tool_name a) kw)) eqn:Hp.
  - assert (Hd : policy_evaluate (tool_name a) kw <> Some false) by (intros E; by rewrite E in Hp).
    destruct (execute t kw); injection Ha as <- _; cbn in Hev;
      repeat (destruct Hev as [<-|Hev]; [cbn; try done; by exists (tool_name a), (tool_args a), t|]);
      done.
  - injection Ha as <- _. cbn in Hev. repeat (destruct Hev as [<-|Hev]; [done|]). done.
Qed.

(** X22.  Every tool invocation [Agent._execute_actions] performs is of a
    registered tool, on the keyword arguments its schema validated from an
    action's arguments, and the policy engine did not deny that call (it
    allowed it, or its evaluation raised: the check fails open). *)
Lemma execute_actions_allowed actions :
  Forall allowed (fst (execute_actions tools policy_evaluate actions)).
Proof. apply execute_actions_runs_allowed. Qed.


Lemma record_observation_ext a r s oh : ext s (fst (record_observation py_str a r s oh)).
Proof.
  unfold record_observation. destruct r; try (cbn; ext_chain).
  destruct (truthy (get d "error")); cbn; ext_chain.
Qed.

Lemma record_results_ok pairs s oh :
  match record_results py_str convert_get_tool_result_to_message pairs s oh with
  | Some (inl (s', r)) => ext s s' /\ ends_with_agent_end s'
  | Some (inr (s', _)) => ext s s'
  | None => True
  end.
Proof.
  revert s oh. induction pairs as [|[a r] rest IH]; intros s oh; cbn; [apply ext_refl|].
  destruct (record_observation py_str a r (add (action_entry a) s) oh) as [s2 oh2] eqn:Ho.
  assert (H2 : ext s s2).
  { apply (ext_trans s (add (action_entry a) s)); [apply ext_add|].
    pose proof (record_observation_ext a r (add (action_entry a) s) oh) as H. by rewrite Ho in H. }
  assert (Hgo : match record_results py_str convert_get_tool_result_to_message rest s2 oh2 with
                | Some (inl (s', _)) => ext s s' /\ ends_with_agent_end s'
                | Some (inr (s', _)) => ext s s'
                | None => True end).
  { specialize (IH s2 oh2).
    destruct (record_results _ _ rest s2 oh2) as [[[s' r']|[s' oh']]|]; [|eauto using ext_trans|done].
    destruct IH; split; eauto using ext_trans. }
  assert (Hf : forall f, ext s (fst (handle_final_response f s2)) /\ ends_with_agent_end (fst (handle_final_response f s2))).
  { intros f. cbn. split; [|apply ends_publish].
    apply (ext_trans s s2); [done|]. ext_chain. }
  destruct (String.eqb (tool_name a) "complete_task"); [|exact Hgo].
  destruct r as [| | | | |d]; try exact Hgo.
  destruct (is_true_value (get d "completed")); [|exact Hgo].
  destruct (has_key d "operation" && has_key d "payload").
  - destruct (final_response_of _ _ _); [apply Hf|done].
  - apply Hf.
Qed.

Lemma resume_check_ok it s st : resume_check it s = Some st -> ok s st.
Proof.
  unfold resume_check. intros H.
  repeat match type of H with
  | context [match ?x with _ => _ end] =>
      lazymatch x with
      | handle_final_response _ _ => fail
      | _ => destruct x; try discriminate H
      end
  end.
  all: injection H as <-; try done; apply handle_final_response_ok.
Qed.

Lemma after_recording_ok it actions vals s ah oh :
  ok s (after_recording detect_stagnation is_complete should_checkpoint
          create_checkpoint_response convert_completion it actions vals s ah oh).
Proof.
  unfold after_recording.
  destruct (truthy (last_value vals) && is_complete (last_value vals) (mem s)).
  { destruct (List.rev actions) as [|la ?]; [apply create_completion_response_ok|].
    destruct (convert_completion la (last_value vals));
      [apply handle_final_response_ok|apply create_completion_response_ok]. }
  destruct (detect_stagnation ah oh); [apply create_error_response_ok|].
  destruct (truthy (last_value vals) && should_checkpoint _ _ _); [apply handle_checkpoint_ok|].
  destruct (awaiting_of vals); [apply handle_approval_request_ok|apply ext_refl].
Qed.

Lemma iteration_ok it s ah oh :
  ok s (iteration tools policy_evaluate failure_str py_str plan should_terminate detect_stagnation
          requires_approval create_approval_request is_complete should_checkpoint
          create_checkpoint_response convert_get_tool_result_to_message convert_completion
          it s ah oh).
Proof.
  unfold iteration.
  destruct (resume_check it s) as [st|] eqn:Hr; [by eapply resume_check_ok|].
  destruct (should_terminate it (plan it (mem s)) (mem s)).
  { destruct (plan it (mem s)); try apply create_completion_response_ok.
    apply handle_final_response_ok. }
  destruct (actions_of (plan it (mem s))) as [actions|].
  2:{ destruct (iterable_outcome (plan it (mem s))); [|done].
      destruct (detect_stagnation ah oh); [apply create_error_response_ok|done]. }
  destruct (replans_completed actions (mem s)); [apply create_completion_response_ok|].
  destruct (detect_stagnation ah oh); [apply create_error_response_ok|].
  set (s1 := emit (map (fun _ => Publish "action_planned" None) actions) s).
  assert (H1 : ext s s1).
  { apply ext_emit. apply Forall_forall. intros x Hx.
    apply list_elem_of_In, in_map_iff in Hx as [? [<- _]]. done. }
  destruct (List.find _ actions); [by eapply ok_mono, handle_approval_request_ok|].
  pose proof (execute_actions_runs_allowed actions) as Hall.
  destruct (execute_actions tools policy_evaluate actions) as [evs results]. cbn [fst] in Hall.
  assert (H2 : ext s (emit evs s1)) by (eapply ext_trans; [exact H1|by apply ext_emit]).
  destruct (values_of results) as [vals|]; [|by eapply ok_mono, handle_execution_errors_ok].
  pose proof (record_results_ok (combine actions vals) (emit evs s1) oh) as Hrr.
  destruct (record_results _ _ _ _ _) as [[[s3 r]|[s3 oh3]]|]; [|
    |done].
  - destruct Hrr. split; [eapply ext_trans|]; eauto.
  - eapply ok_mono; [eapply ext_trans; [exact H2|exact Hrr]|apply after_recording_ok].
Qed.

Lemma planner_loop_ok fuel it s ah oh s' r :
  planner_loop tools policy_evaluate failure_str py_str plan should_terminate detect_stagnation
    requires_approval create_approval_request is_complete should_checkpoint
    create_checkpoint_response convert_get_tool_result_to_message convert_completion
    fuel it s ah oh = Some (s', r) ->
  ext s s' /\ ends_with_agent_end s'.
Proof.
  revert it s ah oh. induction fuel as [|fuel IH]; intros it s ah oh; cbn; [done|].
  pose proof (iteration_ok (S it) s ah oh) as Hok.
  destruct (iteration _ _ _ _ _ _ _ _ _ _ _ _ _ _ _ _ _ _) as [s1 r1|s1 ah1 oh1|]; [|
    |done].
  - by intros [= <- <-].
  - intros H. destruct (IH _ _ _ _ H) as [He Hend]. split; [|done]. by eapply ext_trans.
Qed.

(** X23.  A planner-mode [Agent.run] that returns has appended the task
    entry and then further entries to memory, published [agent_start] and
    then further events, ends its trace with [agent_end], and every tool it
    ran was a registered tool on validated arguments that the policy
    engine did not deny (it allowed them, or its evaluation raised). *)
Theorem run_planner_invariant fuel task s s' r :
  run_planner tools policy_evaluate failure_str py_str plan should_terminate detect_stagnation
    requires_approval create_approval_request is_complete should_checkpoint
    create_checkpoint_response convert_get_tool_result_to_message convert_completion
    fuel task s = Some (s', r) ->
  (exists m evs, mem s' = mem s ++ [("type", VStr TASK); ("content", VStr task)] :: m
                 /\ trace s' = trace s ++ Publish "agent_start" None :: evs
                 /\ Forall allowed evs)
  /\ ends_with_agent_end s'.
Proof.
  unfold run_planner. intros H. apply planner_loop_ok in H as [(m & evs & Hm & He & Hf) Hend].
  split; [|done]. exists m, evs. cbn in Hm, He. rewrite Hm, He, <-!app_assoc. done.
Qed.

Lemma script_loop_ok idx steps s records s' records' failed :
  script_loop tools policy_evaluate failure_str idx steps s records = Some (s', records', failed) ->
  ext s s'.
Proof.
  revert idx s records.
  induction steps as [|raw rest IH]; intros idx s records; cbn -[execute_actions add emit publish].
  { intros [= <- _ _]. apply ext_refl. }
  destruct (negb (truthy _)). { intros [= <- _ _]. apply ext_refl. }
  destruct (py_or (get raw "tool_name") (get raw "tool")) as [| | |t| |]; try discriminate.
  destruct (py_or (get raw "args") (VDict [])) as [| | | | |a]; try discriminate.
  pose proof (execute_actions_runs_allowed [mkAction t a]) as Hall.
  destruct (execute_actions tools policy_evaluate [mkAction t a]) as [evs results].
  cbn [fst] in Hall.
  match goal with |- context [add ?e3 (emit evs (add ?e1 (publish ?n ?st s)))] =>
    assert (H3 : ext s (add e3 (emit evs (add e1 (publish n st s))))) by (ext_chain; done) end.
  destruct (is_script_step_failure _).
  - intros [= <- _ _]. exact H3.
  - intros H. eapply ext_trans; [exact H3|]. by eapply IH.
Qed.

End AgentInvariants.

Lemma run_planner_invariant_witness :
  let fr := mkFinalResponse "display_message" [("message", VStr "done")] "done" in
  let s' := mkState [[("type", VStr TASK); ("content", VStr "T")];
                     [("type", VStr FINAL); ("content", VStr "done")]]
                    [Publish "agent_start" None; Publish "agent_end" None] in
  run_planner (fun _ => None) (fun _ _ => Some true) (fun _ => ""%string) (fun _ => ""%string)
    (fun _ _ => OFinal fr) (fun _ _ _ => true) (fun _ _ => None) (fun _ _ => false)
    (fun _ _ => []) (fun _ _ => false) (fun _ _ _ => false) (fun _ => fr) (fun _ _ _ => fr)
    (fun _ _ => None) 1 "T" (mkState [] [])
  = Some (s', model_dump fr)
  /\ ends_with_agent_end s'.
Proof.
  intros fr s'. split; [reflexivity|].
  exact (proj2 (run_planner_invariant (fun _ => None) (fun _ _ => Some true) (fun _ => ""%string)
    (fun _ => ""%string) (fun _ _ => OFinal fr) (fun _ _ _ => true) (fun _ _ => None)
    (fun _ _ => false) (fun _ _ => []) (fun _ _ => false) (fun _ _ _ => false) (fun _ => fr)
    (fun _ _ _ => fr) (fun _ _ => None) 1 "T" (mkState [] []) s' (model_dump fr) eq_refl)).
Defined.


End AgentRunInvariants.
